(** * PyLiquid2EVM: the wallet / pool layer and its session requests

    A shallow embedding of [pyliquid/liquid/operations.py] (the classes
    [Wallet] and [Pool]) and of [pyliquid/liquid/internals.py] (the request
    functions built on them), with the properties of the design document
    stated and settled against it.

    Python objects live in heaps of the world state and are named by their
    index, so that two references to one object alias.  The node behind the
    JSON-RPC connection and the operating system's random source are
    variables of the development: every statement holds for any node. *)

From Stdlib Require Import ZArith NArith Ascii String Floats.
From stdpp Require Import base list strings.

Local Open Scope string_scope.
Local Open Scope list_scope.
Set Warnings "-register-all".

(** ** Python values *)

(** Identity of an authenticated connection ([AuthServiceProxy]). *)
Abbreviation Conn := nat (only parsing).

(** Identity (address) of a Python object in its heap. *)
Abbreviation loc := nat (only parsing).

(** The values that travel between the caller, the wallet layer and the
    node: JSON-decodable data, [None], and connection handles. *)
Inductive pyval : Type :=
| PyNone
| PyBool (b : bool)
| PyInt (z : Z)
| PyFloat (x : float)
| PyStr (s : string)
| PyTuple (xs : list pyval)
| PyList (xs : list pyval)
| PyDict (kvs : list (string * pyval))
| PyProxy (c : Conn).

(** [bool(v)], as used by [if v:] and [if not v:]. *)
Definition py_truthy (v : pyval) : bool :=
  match v with
  | PyNone => false
  | PyBool b => b
  | PyInt z => negb (Z.eqb z 0)
  | PyFloat x => negb (PrimFloat.eqb x 0%float)
  | PyStr s => negb (String.eqb s EmptyString)
  | PyTuple xs | PyList xs => negb (Nat.eqb (length xs) 0)
  | PyDict kvs => negb (Nat.eqb (length kvs) 0)
  | PyProxy _ => true
  end.

(** [v == s] for a string [s]: among the values above only the string with
    the same characters compares equal to a string. *)
Definition py_eq_str (v : pyval) (s : string) : bool :=
  match v with
  | PyStr t => String.eqb t s
  | _ => false
  end.

(** Python exceptions raised in this layer. *)
Inductive exn : Type :=
| TypeError (msg : string)
| KeyError (key : string)
| AttributeError (msg : string)
| RuntimeError (msg : string)
| NotImplementedError (msg : string)
| IndexError (msg : string)
| RecursionError
| SystemError (msg : string)
| JSONRPCException (code : Z) (msg : string)
| RpcFailure (code : Z) (msg : string).

Inductive res (A : Type) : Type :=
| Ok (a : A)
| Raise (e : exn).
Arguments Ok {A} a.
Arguments Raise {A} e.

Definition py_type_name (v : pyval) : string :=
  match v with
  | PyNone => "NoneType"
  | PyBool _ => "bool"
  | PyInt _ => "int"
  | PyFloat _ => "float"
  | PyStr _ => "str"
  | PyTuple _ => "tuple"
  | PyList _ => "list"
  | PyDict _ => "dict"
  | PyProxy _ => "AuthServiceProxy"
  end.

Fixpoint chars (s : string) : list pyval :=
  match s with
  | EmptyString => []
  | String c s' => PyStr (String c EmptyString) :: chars s'
  end.

(** [*v] in a call: the elements [v] yields when iterated. *)
Definition py_unpack (v : pyval) : res (list pyval) :=
  match v with
  | PyTuple xs | PyList xs => Ok xs
  | PyStr s => Ok (chars s)
  | PyDict kvs => Ok (map (fun kv => PyStr kv.1) kvs)
  | _ => Raise (TypeError (py_type_name v +:+ " object is not iterable"))
  end.

Fixpoint dict_get (kvs : list (string * pyval)) (k : string) : option pyval :=
  match kvs with
  | [] => None
  | (k', v) :: rest => if String.eqb k' k then Some v else dict_get rest k
  end.

(** [v[k]] for a string key [k]. *)
Definition py_getitem (v : pyval) (k : string) : res pyval :=
  match v with
  | PyDict kvs =>
      match dict_get kvs k with
      | Some x => Ok x
      | None => Raise (KeyError k)
      end
  | PyStr _ => Raise (TypeError "string indices must be integers")
  | PyTuple _ => Raise (TypeError "tuple indices must be integers or slices, not str")
  | PyList _ => Raise (TypeError "list indices must be integers or slices, not str")
  | _ => Raise (TypeError (py_type_name v +:+ " object is not subscriptable"))
  end.

(** ** UUIDs (the standard library's [uuid.uuid4] and [str]) *)

Module UUID.

Definition hex_digit (n : N) : ascii :=
  match n with
  | 0%N => "0" | 1%N => "1" | 2%N => "2" | 3%N => "3"
  | 4%N => "4" | 5%N => "5" | 6%N => "6" | 7%N => "7"
  | 8%N => "8" | 9%N => "9" | 10%N => "a" | 11%N => "b"
  | 12%N => "c" | 13%N => "d" | 14%N => "e" | _ => "f"
  end%char.

(** ['%0<w>x' % n] for [n < 16^w]: [w] hexadecimal digits, most
    significant first. *)
Fixpoint hex_fixed (w : nat) (n : N) : list ascii :=
  match w with
  | O => []
  | S w' => hex_fixed w' (N.shiftr n 4) ++ [hex_digit (N.land n 15)]
  end.

(** [UUID(bytes=rnd, version=4).int]: the variant bits are set to RFC 4122
    and the version nibble to 4. *)
Definition uuid4_int (rnd : N) : N :=
  let i := N.land rnd (N.ones 128) in
  let i := N.ldiff i (N.shiftl 0xc000 48) in
  let i := N.lor i (N.shiftl 0x8000 48) in
  let i := N.ldiff i (N.shiftl 0xf000 64) in
  N.lor i (N.shiftl 4 76).

(** [str(u)]: the 32 digits grouped 8-4-4-4-12. *)
Definition str_of_int (i : N) : string :=
  let hex := hex_fixed 32 i in
  string_of_list_ascii
    (take 8 hex ++ ["-"%char] ++ take 4 (drop 8 hex) ++ ["-"%char]
     ++ take 4 (drop 12 hex) ++ ["-"%char] ++ take 4 (drop 16 hex)
     ++ ["-"%char] ++ drop 20 hex).

Definition is_hex (c : ascii) : bool :=
  let n := nat_of_ascii c in
  (Nat.leb 48 n && Nat.leb n 57) || (Nat.leb 97 n && Nat.leb n 102).

(** Syntactic validity: 36 characters, hyphens at 8, 13, 18 and 23,
    hexadecimal digits elsewhere. *)
Fixpoint well_formed_from (pos : nat) (cs : list ascii) : bool :=
  match cs with
  | [] => Nat.eqb pos 36
  | c :: cs' =>
      (if Nat.eqb pos 8 || Nat.eqb pos 13 || Nat.eqb pos 18 || Nat.eqb pos 23
       then Ascii.eqb c "-"%char else is_hex c)
      && well_formed_from (S pos) cs'
  end.

Definition is_uuid_string (s : string) : bool :=
  well_formed_from 0 (list_ascii_of_string s).

End UUID.

(** ** The backend path (main.py) *)

Module Main.

Definition PROJECT_PATH : string := "PyLiquid2EVM".

(** [s.split(sep)] for a one-character separator: the pieces between the
    separators, empty pieces included. *)
Fixpoint split (sep : ascii) (s : string) : list string :=
  match s with
  | EmptyString => [EmptyString]
  | String c s' =>
      if Ascii.eqb c sep then EmptyString :: split sep s'
      else match split sep s' with
           | x :: xs => String c x :: xs
           | [] => [String c EmptyString]
           end
  end.

(** ['/'.join(xs)] *)
Fixpoint join (xs : list string) : string :=
  match xs with
  | [] => EmptyString
  | [x] => x
  | x :: xs' => x +:+ "/" +:+ join xs'
  end.

(** [x in xs] *)
Definition py_in (x : string) (xs : list string) : bool :=
  existsb (String.eqb x) xs.

(** [_filter_path], computed from [str(Path(__file__))]:
    [['/'.join(_base_path[:i]) for i in range(1, len(_base_path))
      if PROJECT_PATH not in _base_path[:i]][-1]]. *)
Definition _filter_path (file : string) : res string :=
  let _base_path := split "/" file in
  let prefixes :=
    map (fun i => join (take i _base_path))
      (List.filter (fun i => negb (py_in PROJECT_PATH (take i _base_path)))
         (seq 1 (length _base_path - 1))) in
  match last prefixes with
  | Some p => Ok p
  | None => Raise (IndexError "list index out of range")
  end.

(** [BACKEND_PATH = f"{_filter_path}/{PROJECT_PATH}"] *)
Definition BACKEND_PATH (file : string) : res string :=
  match _filter_path file with
  | Ok p => Ok (p +:+ "/" +:+ PROJECT_PATH)
  | Raise e => Raise e
  end.

(** Position of the first component equal to [x], the length when there
    is none. *)
Fixpoint index_of (x : string) (xs : list string) : nat :=
  match xs with
  | [] => 0
  | y :: xs' => if String.eqb x y then 0 else S (index_of x xs')
  end.

End Main.

(** ** The world: node, heaps and session registry *)

(** A bound RPC method, [proxy.<name>]: the callable handed to the
    executor. *)
Record callable : Type := Callable { fn_conn : Conn; fn_name : string }.

(** One JSON-RPC request as it reaches the node. *)
Record RpcCall : Type :=
  Call { call_conn : Conn; call_method : string; call_args : list pyval }.

(** A request together with the node's reply to it. *)
Record Exchange : Type :=
  Exch { request : RpcCall; reply : pyval + Z * string }.

(** A [Wallet] object; [None] is an attribute that has not been assigned
    yet. *)
Record WalletObj : Type :=
  MkWallet { _proxy : option pyval; _wallet : option pyval }.

(** A [Pool] object: its one attribute refers to a [Wallet] object. *)
Record PoolObj : Type := MkPool { _vault_wallet : option loc }.

Section Layer.

(** The node: a state and its reaction to a request, either a decoded
    result or an error code and message. *)
Variable NodeState : Type.
Variable node_rpc : NodeState -> RpcCall -> (pyval + Z * string) * NodeState.

(** The operating system's random source ([os.urandom]), by draw. *)
Variable urandom : nat -> N.

Record World : Type := MkWorld {
  node : NodeState;
  rpc_log : list Exchange;           (* exchanges so far, oldest first *)
  urandom_pos : nat;                 (* random draws consumed *)
  wallet_heap : list WalletObj;
  pool_heap : list PoolObj;
  service_heap : list Conn;          (* the connection of each Service *)
  active_service : list (loc * pyval);  (* registry dict, insertion order *)
  session_wallets : list loc         (* registry list, oldest first *)
}.

(** Computations that read and write the world and may raise. *)
Definition M (A : Type) : Type := World -> res A * World.

Definition ret {A} (a : A) : M A := fun w => (Ok a, w).
Definition raise {A} (e : exn) : M A := fun w => (Raise e, w).
Definition bind {A B} (m : M A) (k : A -> M B) : M B :=
  fun w =>
    match m w with
    | (Ok a, w') => k a w'
    | (Raise e, w') => (Raise e, w')
    end.
Definition lift {A} (r : res A) : M A := fun w => (r, w).

Notation "x <- m ;; k" := (bind m (fun x => k))
  (at level 100, m at next level, right associativity).
Notation "m ;;; k" := (bind m (fun _ => k))
  (at level 100, right associativity).

(** *** The connection *)

(** [proxy.<name>]: an [AuthServiceProxy] answers every attribute with
    the RPC method of that name; other values have no such attribute. *)
Definition py_getattr (v : pyval) (name : string) : M callable :=
  match v with
  | PyProxy c => ret (Callable c name)
  | _ => raise (AttributeError
                  (py_type_name v +:+ " object has no attribute " +:+ name))
  end.

(** The world after one exchange with the node. *)
Definition sent (w : World) (x : Exchange) (n' : NodeState) : World :=
  MkWorld n' (rpc_log w ++ [x]) (urandom_pos w) (wallet_heap w)
    (pool_heap w) (service_heap w) (active_service w) (session_wallets w).

(** What the connection makes of the node's reply: a rejection is raised
    as [JSONRPCException]. *)
Definition decoded (reply : pyval + Z * string) : res pyval :=
  match reply with
  | inl v => Ok v
  | inr (code, msg) => Raise (JSONRPCException code msg)
  end.

(** Calling a bound RPC method: the request goes to the node, which
    replies. *)
Definition call (f : callable) (args : list pyval) : M pyval :=
  fun w =>
    let rq := Call (fn_conn f) (fn_name f) args in
    let '(reply, n') := node_rpc (node w) rq in
    (decoded reply, sent w (Exch rq reply) n').

(** *** RPC call executor *)

(** Modelled from the spec: the decorator [rpc_exec] of
    [pyliquid.liquid.wrappers], which is not among the sources.  The
    design document has the executor forward the ordered argument list,
    pass the node's result through unchanged and surface any rejection as
    one classified failure carrying the node's code and message; its
    wrapped function "unnests argument tuples", so the decorator hands it
    the caller's positional arguments nested in a single tuple. *)
Definition rpc_exec (func : callable -> list pyval -> M pyval)
  : callable -> list pyval -> M pyval :=
  fun _inst_func args w =>
    match func _inst_func [PyTuple args] w with
    | (Raise (JSONRPCException code msg), w') => (Raise (RpcFailure code msg), w')
    | out => out
    end.

(** The function that [rpc_exec] decorates (the class argument [cls] is
    not used by the body and is left out). *)
Definition _wrapper_executor_body (_inst_func : callable) (args : list pyval)
  : M pyval :=
  if py_truthy (PyTuple args) then
    match args with
    | a0 :: _ => xs <- lift (py_unpack a0) ;; call _inst_func xs
    | [] => raise (IndexError "tuple index out of range")
    end
  else call _inst_func [].

Definition _wrapper_executor : callable -> list pyval -> M pyval :=
  rpc_exec _wrapper_executor_body.

(** *** uuid4 *)

Definition uuid4_str : M string :=
  fun w =>
    (Ok (UUID.str_of_int (UUID.uuid4_int (urandom (urandom_pos w)))),
     MkWorld (node w) (rpc_log w) (S (urandom_pos w)) (wallet_heap w)
       (pool_heap w) (service_heap w) (active_service w) (session_wallets w)).

(** *** Object heaps *)

Definition with_wallet_heap (w : World) (h : list WalletObj) : World :=
  MkWorld (node w) (rpc_log w) (urandom_pos w) h (pool_heap w)
    (service_heap w) (active_service w) (session_wallets w).

Definition with_pool_heap (w : World) (h : list PoolObj) : World :=
  MkWorld (node w) (rpc_log w) (urandom_pos w) (wallet_heap w) h
    (service_heap w) (active_service w) (session_wallets w).

(** A reference always names a live object in Python; [SystemError]
    stands for the impossible dangling reference. *)
Definition get_wallet_obj (self : loc) : M WalletObj :=
  fun w =>
    match wallet_heap w !! self with
    | Some o => (Ok o, w)
    | None => (Raise (SystemError "dangling Wallet reference"), w)
    end.

Definition get_pool_obj (self : loc) : M PoolObj :=
  fun w =>
    match pool_heap w !! self with
    | Some o => (Ok o, w)
    | None => (Raise (SystemError "dangling Pool reference"), w)
    end.

(** [object.__new__(Wallet)]: a fresh object without attributes. *)
Definition new_wallet_obj : M loc :=
  fun w => (Ok (length (wallet_heap w)),
            with_wallet_heap w (wallet_heap w ++ [MkWallet None None])).

Definition new_pool_obj : M loc :=
  fun w => (Ok (length (pool_heap w)),
            with_pool_heap w (pool_heap w ++ [MkPool None])).

(** [self._proxy = v] *)
Definition set__proxy (self : loc) (v : pyval) : M unit :=
  o <- get_wallet_obj self ;;
  fun w => (Ok tt, with_wallet_heap w
                     (<[self := MkWallet (Some v) (_wallet o)]> (wallet_heap w))).

(** [self._wallet = v] *)
Definition set__wallet (self : loc) (v : pyval) : M unit :=
  o <- get_wallet_obj self ;;
  fun w => (Ok tt, with_wallet_heap w
                     (<[self := MkWallet (_proxy o) (Some v)]> (wallet_heap w))).

(** [self._vault_wallet = l] *)
Definition set__vault_wallet (self : loc) (l : loc) : M unit :=
  get_pool_obj self ;;;
  fun w => (Ok tt, with_pool_heap w (<[self := MkPool (Some l)]> (pool_heap w))).

(** *** class Wallet *)

(** Property [proxy]. *)
Definition proxy (self : loc) : M pyval :=
  o <- get_wallet_obj self ;;
  match _proxy o with
  | Some v => ret v
  | None => raise (AttributeError "'Wallet' object has no attribute '_proxy'")
  end.

(** Property [wallet]. *)
Definition wallet (self : loc) : M pyval :=
  o <- get_wallet_obj self ;;
  match _wallet o with
  | Some v => ret v
  | None => raise (AttributeError "'Wallet' object has no attribute '_wallet'")
  end.

(** [self._wrapper_executor(self.proxy.<name>, *args)] *)
Definition exec_on_proxy (self : loc) (name : string) (args : list pyval)
  : M pyval :=
  p <- proxy self ;;
  f <- py_getattr p name ;;
  _wrapper_executor f args.

Definition _create_wallet (self : loc) (address : bool) (label : pyval)
  : M pyval :=
  label <- (if negb (py_truthy label)
            then (s <- uuid4_str ;; ret (PyStr s))
            else ret label) ;;
  creation <- exec_on_proxy self "createwallet"
                [label; PyBool false; PyBool false] ;;
  if address then
    output <- exec_on_proxy self "getnewaddress" [] ;;
    ret output
  else ret creation.

Definition list_wallets (self : loc) : M pyval :=
  exec_on_proxy self "listwalletdir" [].

Definition load_wallet (self : loc) (name : pyval) : M pyval :=
  exec_on_proxy self "loadwallet" [name].

Definition get_balance (self : loc) : M pyval :=
  exec_on_proxy self "getbalance" [].

Definition get_address (self : loc) : M pyval :=
  exec_on_proxy self "getaddress" [].

Definition get_private_key (self : loc) : M pyval :=
  exec_on_proxy self "dumpprivkey" [].

Definition get_public_key (self : loc) : M pyval :=
  exec_on_proxy self "getpubkey" [].

Definition get_wallet_info (self : loc) : M pyval :=
  exec_on_proxy self "getwalletinfo" [].

Definition send_to_address (self : loc) (address amount : pyval) : M pyval :=
  exec_on_proxy self "sendtoaddress" [address; amount].

Definition Wallet__init__ (self : loc) (proxy_service mode wallet_label : pyval)
    (with_address : bool) : M unit :=
  set__proxy self proxy_service ;;;
  if py_eq_str mode "c" then
    r <- _create_wallet self with_address wallet_label ;;
    set__wallet self r
  else if py_eq_str mode "r" then
    set__wallet self (PyDict [])
  else if py_eq_str mode "l" then
    r <- load_wallet self wallet_label ;;
    set__wallet self r
  else raise (NotImplementedError "Provide a valid Wallet mode!").

(** The arguments of a call [Wallet(...)]; [None] is an argument the
    caller does not pass. *)
Record WalletArgs : Type := MkArgs {
  arg_proxy_service : option pyval;
  arg_mode : option pyval;
  arg_wallet_label : option pyval;
  arg_with_address : option bool
}.

(** [Wallet(...)]: allocation, binding of the arguments to the signature
    of [__init__] ([proxy_service] is required, [mode='r'],
    [wallet_label=None], [with_address=True]), then the body. *)
Definition Wallet_new (a : WalletArgs) : M loc :=
  self <- new_wallet_obj ;;
  match arg_proxy_service a with
  | None =>
      raise (TypeError
        "Wallet.__init__() missing 1 required positional argument: 'proxy_service'")
  | Some p =>
      Wallet__init__ self p
        (default (PyStr "r") (arg_mode a))
        (default PyNone (arg_wallet_label a))
        (default true (arg_with_address a)) ;;;
      ret self
  end.

(** The operations of a constructed [Wallet]. *)
Inductive WalletOp : Type :=
| OpListWallets
| OpLoadWallet (name : pyval)
| OpGetBalance
| OpGetAddress
| OpGetPrivateKey
| OpGetPublicKey
| OpGetWalletInfo
| OpSendToAddress (address amount : pyval).

Definition run_wallet_op (self : loc) (op : WalletOp) : M pyval :=
  match op with
  | OpListWallets => list_wallets self
  | OpLoadWallet name => load_wallet self name
  | OpGetBalance => get_balance self
  | OpGetAddress => get_address self
  | OpGetPrivateKey => get_private_key self
  | OpGetPublicKey => get_public_key self
  | OpGetWalletInfo => get_wallet_info self
  | OpSendToAddress address amount => send_to_address self address amount
  end.

(** The RPC method and argument list each operation stands for. *)
Definition op_request (op : WalletOp) : string * list pyval :=
  match op with
  | OpListWallets => ("listwalletdir", [])
  | OpLoadWallet name => ("loadwallet", [name])
  | OpGetBalance => ("getbalance", [])
  | OpGetAddress => ("getaddress", [])
  | OpGetPrivateKey => ("dumpprivkey", [])
  | OpGetPublicKey => ("getpubkey", [])
  | OpGetWalletInfo => ("getwalletinfo", [])
  | OpSendToAddress address amount => ("sendtoaddress", [address; amount])
  end.

(** *** class Pool *)

Definition Pool__init__ (self : loc) (input_wallet : loc) : M unit :=
  set__vault_wallet self input_wallet.

Definition Pool_new (input_wallet : loc) : M loc :=
  self <- new_pool_obj ;;
  Pool__init__ self input_wallet ;;;
  ret self.

(** [self._vault_wallet] *)
Definition get__vault_wallet (self : loc) : M loc :=
  o <- get_pool_obj self ;;
  match _vault_wallet o with
  | Some l => ret l
  | None => raise (AttributeError "'Pool' object has no attribute '_vault_wallet'")
  end.

(** Property [vaul_wallet]. *)
Definition vaul_wallet (self : loc) : M loc := get__vault_wallet self.

Definition issue_token (self : loc) (amount reissue : pyval) : M pyval :=
  owner <- get__vault_wallet self ;;
  exec_on_proxy owner "issueasset" [amount; reissue].

Inductive PoolOp : Type :=
| OpVaulWallet
| OpIssueToken (amount reissue : pyval).

Definition run_pool_op (self : loc) (op : PoolOp) : M (loc + pyval) :=
  match op with
  | OpVaulWallet => l <- vaul_wallet self ;; ret (inl l)
  | OpIssueToken amount reissue =>
      v <- issue_token self amount reissue ;; ret (inr v)
  end.

(** *** Session registry and Service *)

Definition with_active_service (w : World) (d : list (loc * pyval)) : World :=
  MkWorld (node w) (rpc_log w) (urandom_pos w) (wallet_heap w) (pool_heap w)
    (service_heap w) d (session_wallets w).

(** [d[k] = v] on a dict in insertion order: an existing key keeps its
    place, a new key goes last. *)
Fixpoint dict_set (d : list (loc * pyval)) (k : loc) (v : pyval)
  : list (loc * pyval) :=
  match d with
  | [] => [(k, v)]
  | (k', v') :: rest =>
      if Nat.eqb k' k then (k, v) :: rest else (k', v') :: dict_set rest k v
  end.

(** [d.update(new)] *)
Definition dict_update (d new : list (loc * pyval)) : list (loc * pyval) :=
  foldl (fun acc kv => dict_set acc kv.1 kv.2) d new.

(** Modelled from the spec: [get_active_service] of [pyliquid.main], which
    the sources import but do not define.  The registry holds "the
    currently active Service -> connection mapping"; the getter gives
    that mapping. *)
Definition get_active_service : M (list (loc * pyval)) :=
  fun w => (Ok (active_service w), w).

(** Modelled from the spec: [update_active_service] of [pyliquid.main],
    absent likewise.  Entries are "appended as Service objects are
    created" with "no explicit removal": the given entries are merged
    into the mapping. *)
Definition update_active_service (new : list (loc * pyval)) : M unit :=
  fun w => (Ok tt, with_active_service w (dict_update (active_service w) new)).

(** Modelled from the spec: [get_session_wallets] of [pyliquid.main],
    absent likewise: the "ordered list of Wallet instances created during
    the session (most-recently-created last)". *)
Definition get_session_wallets : M (list loc) :=
  fun w => (Ok (session_wallets w), w).

(** Modelled from the spec: the class [Service] of the module [server],
    which is not among the sources.  Constructing a default Service
    attaches to the node and "opens and authenticates a Connection to
    it"; the Service stores that connection. *)
Definition Service_new : M loc :=
  fun w =>
    let s := length (service_heap w) in
    (Ok s, MkWorld (node w) (rpc_log w) (urandom_pos w) (wallet_heap w)
             (pool_heap w) (service_heap w ++ [s]) (active_service w)
             (session_wallets w)).

(** Modelled from the spec: [Service.get_proxy], absent likewise: the
    connection the Service holds. *)
Definition get_proxy (_service : loc) : M pyval :=
  fun w =>
    match service_heap w !! _service with
    | Some c => (Ok (PyProxy c), w)
    | None => (Raise (SystemError "dangling Service reference"), w)
    end.

(** *** Request functions (internals.py) *)

(** [xs[-1]] *)
Definition py_last {A} (xs : list A) : M A :=
  match last xs with
  | Some x => ret x
  | None => raise (IndexError "list index out of range")
  end.

(** [_check_for_proxy]; [depth] is the number of nested calls the
    interpreter still allows before it raises [RecursionError]. *)
Fixpoint _check_for_proxy (depth : nat) : M pyval :=
  match depth with
  | O => raise RecursionError
  | S depth' =>
      _temp <- get_active_service ;;
      if negb (Nat.eqb (length _temp) 0) then
        kv <- py_last _temp ;;
        ret kv.2
      else
        _service <- Service_new ;;
        _proxy <- get_proxy _service ;;
        update_active_service [(_service, _proxy)] ;;;
        _check_for_proxy depth' ;;;
        ret PyNone
  end.

(** [get_wallet] *)
Definition get_wallet (depth : nat) : M pyval :=
  session_wallets <- get_session_wallets ;;
  _wallet <- (if negb (Nat.eqb (length session_wallets) 0) then
                py_last session_wallets
              else
                _proxy <- _check_for_proxy depth ;;
                Wallet_new (MkArgs (Some _proxy) None None (Some false))) ;;
  list_wallets _wallet ;;;
  ret PyNone.

(** [[w for w in ws if w.wallet['label'] == requested_label]] *)
Fixpoint wallets_labeled (ws : list loc) (requested_label : string)
  : M (list loc) :=
  match ws with
  | [] => ret []
  | w :: rest =>
      meta <- wallet w ;;
      lbl <- lift (py_getitem meta "label") ;;
      tl <- wallets_labeled rest requested_label ;;
      ret (if py_eq_str lbl requested_label then w :: tl else tl)
  end.

Definition no_wallet_loaded : exn :=
  RuntimeError
    "No wallet instance have been loaded. Please load            a wallet beforehand.".

Definition label_not_found : exn :=
  TypeError "The requested address has not been loaded.".

(** [get_labeled_wallet] *)
Definition get_labeled_wallet (requested_label : string) : M pyval :=
  session_wallets <- get_session_wallets ;;
  if Nat.eqb (length session_wallets) 0 then
    raise no_wallet_loaded
  else
    target_wallet <- wallets_labeled session_wallets requested_label ;;
    if negb (Nat.eqb (length target_wallet) 0) then
      _wallet <- py_last target_wallet ;;
      wallet _wallet
    else raise label_not_found.

(** [post_create_wallet]: the call [Wallet()] passes no argument. *)
Definition post_create_wallet : M loc :=
  out <- Wallet_new (MkArgs None None None None) ;;
  ret out.

(** *** Histories of operations *)

(** One call of a method of a constructed [Wallet] or [Pool]. *)
Inductive Action : Type :=
| WalletAct (self : loc) (op : WalletOp)
| PoolAct (self : loc) (op : PoolOp).

Definition step (w : World) (a : Action) : World :=
  match a with
  | WalletAct self op => (run_wallet_op self op w).2
  | PoolAct self op => (run_pool_op self op w).2
  end.

(** The world after a history of calls, whatever each returned or
    raised. *)
Definition run_actions (w : World) (acts : list Action) : World :=
  foldl step w acts.

(** *** The executor's contract, in the words of the design document *)

(** "Given a target RPC operation and a (possibly empty) ordered argument
    list, invoke the operation over the current Connection and return its
    decoded result", "passed through unchanged"; a rejection "is surfaced
    as a single classified failure carrying the node's error code and
    message". *)
Definition forwarded (c : Conn) (name : string) (args : list pyval) : M pyval :=
  fun w =>
    let rq := Call c name args in
    let '(reply, n') := node_rpc (node w) rq in
    (match reply with
     | inl v => Ok v
     | inr (code, msg) => Raise (RpcFailure code msg)
     end,
     sent w (Exch rq reply) n').

(** *** Lookup by label, in the words of the design document *)

(** The metadata record a wallet object holds. *)
Definition metadata (w : World) (l : loc) : option pyval :=
  match wallet_heap w !! l with
  | Some o => _wallet o
  | None => None
  end.

(** The wallet's metadata is a record with a [label] field. *)
Definition has_label (w : World) (l : loc) : Prop :=
  exists kvs v, metadata w l = Some (PyDict kvs) /\ dict_get kvs "label" = Some v.

(** "The match is exact-string on the [label] field inside metadata." *)
Definition label_matches (w : World) (requested : string) (l : loc) : bool :=
  match metadata w l with
  | Some (PyDict kvs) =>
      match dict_get kvs "label" with
      | Some (PyStr t) => String.eqb t requested
      | _ => false
      end
  | _ => false
  end.

(** "If multiple match, the most recently created one wins." *)
Definition most_recent_match (w : World) (requested : string) : option loc :=
  last (List.filter (label_matches w requested) (session_wallets w)).

(** *** Outcomes of a construction *)

(** The world in which a wallet construction ends: the node's new state,
    the exchanges added, one more random draw when a label was generated,
    and the new object last in the heap. *)
Definition constructed (w : World) (n' : NodeState) (xs : list Exchange)
    (draws : nat) (o : WalletObj) : World :=
  MkWorld n' (rpc_log w ++ xs) (draws + urandom_pos w) (wallet_heap w ++ [o])
    (pool_heap w) (service_heap w) (active_service w) (session_wallets w).

(** The label a creation uses: the one supplied, or a generated one when
    none (or an empty one) is supplied. *)
Definition label_used (lbl : option pyval) (w : World) : pyval :=
  if py_truthy (default PyNone lbl) then default PyNone lbl
  else PyStr (UUID.str_of_int (UUID.uuid4_int (urandom (urandom_pos w)))).

Definition draws_used (lbl : option pyval) : nat :=
  if py_truthy (default PyNone lbl) then 0 else 1.

(** The local state of the layer: object heaps and session registry. *)
Definition local_state (w : World)
  : list WalletObj * list PoolObj * list Conn * list (loc * pyval) * list loc :=
  (wallet_heap w, pool_heap w, service_heap w, active_service w,
   session_wallets w).

(** *** Everything the layer can be asked to do *)

(** One use of the layer: a construction, an operation of a constructed
    object, a resolution of the connection, or a request. *)
Inductive Event : Type :=
| EvNewWallet (a : WalletArgs)
| EvNewPool (input_wallet : loc)
| EvAction (a : Action)
| EvResolve
| EvGetWallet
| EvGetLabeled (requested_label : string)
| EvPostCreate.

Definition run_event (depth : nat) (w : World) (e : Event) : World :=
  match e with
  | EvNewWallet a => (Wallet_new a w).2
  | EvNewPool input_wallet => (Pool_new input_wallet w).2
  | EvAction a => step w a
  | EvResolve => (_check_for_proxy depth w).2
  | EvGetWallet => (get_wallet depth w).2
  | EvGetLabeled requested_label => (get_labeled_wallet requested_label w).2
  | EvPostCreate => (post_create_wallet w).2
  end.

Definition run_events (depth : nat) (w : World) (evs : list Event) : World :=
  foldl (run_event depth) w evs.

(** A computation that leaves the session's wallet list as it found it. *)
Definition keeps_session {A} (m : M A) : Prop :=
  forall w, session_wallets (m w).2 = session_wallets w.

(** A computation that only reads. *)
Definition reads_only {A} (m : M A) : Prop :=
  forall w, (m w).2 = w.

(** ** Properties *)

(** *** Generated labels *)

Lemma hex_digit_is_hex (n : N) : UUID.is_hex (UUID.hex_digit n) = true.
Proof.
  destruct n as [|p]; [reflexivity|].
  do 5 (try (destruct p as [p|p|]; try reflexivity)).
Qed.

Lemma hex_fixed_length (w : nat) (n : N) : length (UUID.hex_fixed w n) = w.
Proof.
  revert n. induction w as [|w IH]; intros n; cbn [UUID.hex_fixed].
  - reflexivity.
  - rewrite length_app, IH. cbn. lia.
Qed.

Lemma hex_fixed_is_hex (w : nat) (n : N) :
  forallb UUID.is_hex (UUID.hex_fixed w n) = true.
Proof.
  revert n. induction w as [|w IH]; intros n; cbn [UUID.hex_fixed].
  - reflexivity.
  - rewrite forallb_app, IH. cbn [forallb].
    rewrite hex_digit_is_hex. reflexivity.
Qed.

(** Every string [str] makes of a UUID is well formed. *)
Lemma str_of_int_well_formed (i : N) :
  UUID.is_uuid_string (UUID.str_of_int i) = true.
Proof.
  unfold UUID.is_uuid_string, UUID.str_of_int.
  rewrite list_ascii_of_string_of_list_ascii.
  pose proof (hex_fixed_length 32 i) as Hlen.
  pose proof (hex_fixed_is_hex 32 i) as Hhex.
  destruct (UUID.hex_fixed 32 i) as [|c0 hex]; [discriminate|].
  do 31 (destruct hex as [|? hex]; [discriminate|]).
  destruct hex; [|discriminate].
  cbn [forallb] in Hhex.
  repeat (apply andb_prop in Hhex as [?Hc Hhex]).
  cbn [take drop app UUID.well_formed_from Nat.eqb orb Ascii.eqb Bool.eqb].
  repeat match goal with H : UUID.is_hex _ = true |- _ => rewrite H; clear H end.
  reflexivity.
Qed.

#[local] Arguments UUID.str_of_int : simpl never.
#[local] Arguments UUID.uuid4_int : simpl never.

(** *** The executor *)

Ltac step_bind := unfold bind, ret, raise, lift; cbn [fst snd].

Lemma wrapper_executor_forwarded (f : callable) (args : list pyval) (w : World) :
  _wrapper_executor f args w = forwarded (fn_conn f) (fn_name f) args w.
Proof.
  unfold _wrapper_executor, rpc_exec, _wrapper_executor_body, forwarded, call.
  cbn [py_truthy length Nat.eqb negb py_unpack]. step_bind.
  destruct (node_rpc (node w) (Call (fn_conn f) (fn_name f) args)) as [[v|[code msg]] n'];
    reflexivity.
Qed.

(** The nesting matters: on arguments that are not nested the body unpacks
    its first argument and drops the others. *)
Lemma wrapper_executor_body_unpacks_first
    (f : callable) (a0 : pyval) (rest : list pyval) (w : World) :
  _wrapper_executor_body f (a0 :: rest) w
  = match py_unpack a0 with
    | Ok xs => call f xs w
    | Raise e => (Raise e, w)
    end.
Proof.
  unfold _wrapper_executor_body. cbn [py_truthy length Nat.eqb negb].
  step_bind. destruct (py_unpack a0); reflexivity.
Qed.

Lemma forwarded_local (c : Conn) (name : string) (args : list pyval) (w : World) :
  local_state (forwarded c name args w).2 = local_state w.
Proof.
  unfold forwarded.
  destruct (node_rpc (node w) (Call c name args)) as [r n']; reflexivity.
Qed.

Lemma exec_on_proxy_forwarded (self : loc) (name : string) (args : list pyval)
    (w : World) (o : WalletObj) (c : Conn) :
  wallet_heap w !! self = Some o ->
  _proxy o = Some (PyProxy c) ->
  exec_on_proxy self name args w = forwarded c name args w.
Proof.
  intros Hself Hproxy.
  unfold exec_on_proxy, proxy, get_wallet_obj. step_bind.
  rewrite Hself, Hproxy. cbn. apply wrapper_executor_forwarded.
Qed.

Lemma exec_on_proxy_local (self : loc) (name : string) (args : list pyval)
    (w : World) :
  local_state (exec_on_proxy self name args w).2 = local_state w.
Proof.
  unfold exec_on_proxy, proxy, get_wallet_obj. step_bind.
  destruct (wallet_heap w !! self) as [[[p|] m]|]; cbn; try reflexivity.
  destruct p; cbn; try reflexivity.
  rewrite wrapper_executor_forwarded. apply forwarded_local.
Qed.

(** *** Construction *)

Lemma heap_lookup_fresh {A} (h : list A) (o : A) :
  (h ++ [o]) !! length h = Some o.
Proof. apply list_lookup_middle. reflexivity. Qed.

Lemma heap_insert_fresh {A} (h : list A) (o o' : A) :
  <[length h := o']> (h ++ [o]) = h ++ [o'].
Proof.
  rewrite insert_app_r_alt by lia.
  replace (length h - length h) with 0 by lia. reflexivity.
Qed.

Ltac run :=
  repeat (step_bind; cbn;
          rewrite ?heap_lookup_fresh, ?heap_insert_fresh).

Ltac run_exec :=
  unfold exec_on_proxy, proxy, wallet, get_wallet_obj, py_getattr; run;
  rewrite ?wrapper_executor_forwarded; unfold forwarded; run.

Ltac init_wallet :=
  unfold Wallet_new, Wallet__init__, new_wallet_obj, set__proxy, set__wallet,
    _create_wallet, load_wallet, uuid4_str;
  run_exec.

Lemma Wallet_new_reference (p : pyval) (lbl : option pyval) (addr : option bool)
    (w : World) :
  Wallet_new (MkArgs (Some p) (Some (PyStr "r")) lbl addr) w
  = (Ok (length (wallet_heap w)),
     with_wallet_heap w
       (wallet_heap w ++ [MkWallet (Some p) (Some (PyDict []))])).
Proof. init_wallet. reflexivity. Qed.

#[local] Arguments py_truthy : simpl never.

Lemma Wallet_new_create (c : Conn) (lbl : option pyval) (addr : option bool)
    (w : World) :
  let rq1 := Call c "createwallet" [label_used lbl w; PyBool false; PyBool false] in
  let rq2 := Call c "getnewaddress" [] in
  let self := length (wallet_heap w) in
  let p := Some (PyProxy c) in
  let d := draws_used lbl in
  Wallet_new (MkArgs p (Some (PyStr "c")) lbl addr) w =
  match node_rpc (node w) rq1 with
  | (inl v1, n1) =>
      if default true addr then
        match node_rpc n1 rq2 with
        | (inl v2, n2) =>
            (Ok self,
             constructed w n2 [Exch rq1 (inl v1); Exch rq2 (inl v2)] d
               (MkWallet p (Some v2)))
        | (inr (code, msg), n2) =>
            (Raise (RpcFailure code msg),
             constructed w n2
               [Exch rq1 (inl v1); Exch rq2 (inr (code, msg))] d
               (MkWallet p None))
        end
      else
        (Ok self, constructed w n1 [Exch rq1 (inl v1)] d (MkWallet p (Some v1)))
  | (inr (code, msg), n1) =>
      (Raise (RpcFailure code msg),
       constructed w n1 [Exch rq1 (inr (code, msg))] d (MkWallet p None))
  end.
Proof.
  intros rq1 rq2 self p d. subst rq1 rq2 self p d.
  unfold label_used, draws_used.
  destruct (py_truthy (default PyNone lbl)) eqn:Hlbl; init_wallet;
    rewrite Hlbl; run_exec.
  all: destruct (node_rpc (node w) _) as [[v1|[code msg]] n1]; run_exec;
    [|reflexivity].
  all: destruct (default true addr); run_exec; [|reflexivity].
  all: destruct (node_rpc n1 _) as [[v2|[code msg]] n2]; run_exec.
  all: unfold constructed, sent; cbn; rewrite <- ?app_assoc; reflexivity.
Qed.

Lemma Wallet_new_load (c : Conn) (lbl : option pyval) (addr : option bool)
    (w : World) :
  let rq := Call c "loadwallet" [default PyNone lbl] in
  let self := length (wallet_heap w) in
  let p := Some (PyProxy c) in
  Wallet_new (MkArgs p (Some (PyStr "l")) lbl addr) w =
  match node_rpc (node w) rq with
  | (inl v, n1) =>
      (Ok self, constructed w n1 [Exch rq (inl v)] 0 (MkWallet p (Some v)))
  | (inr (code, msg), n1) =>
      (Raise (RpcFailure code msg),
       constructed w n1 [Exch rq (inr (code, msg))] 0 (MkWallet p None))
  end.
Proof.
  intros rq self p. subst rq self p. init_wallet.
  destruct (node_rpc (node w) _) as [[v|[code msg]] n1]; run_exec; reflexivity.
Qed.

(** Without a connection in [proxy_service] the first request of a
    creation or load fails on the attribute access. *)
Lemma Wallet_new_no_connection (p mode : pyval) (lbl : option pyval)
    (addr : option bool) (w : World) :
  (forall c, p <> PyProxy c) ->
  mode = PyStr "c" \/ mode = PyStr "l" ->
  exists msg, (Wallet_new (MkArgs (Some p) (Some mode) lbl addr) w).1
              = Raise (AttributeError msg).
Proof.
  intros Hp [-> | ->].
  - destruct p; try (contradiction (Hp _ eq_refl));
      (destruct (py_truthy (default PyNone lbl)) eqn:Hlbl; init_wallet;
       rewrite Hlbl; run_exec; eexists; reflexivity).
  - destruct p; try (contradiction (Hp _ eq_refl));
      (init_wallet; eexists; reflexivity).
Qed.

(** *** Operations of a constructed wallet *)

Lemma run_wallet_op_exec (self : loc) (op : WalletOp) :
  run_wallet_op self op = exec_on_proxy self (op_request op).1 (op_request op).2.
Proof. destruct op; reflexivity. Qed.

Lemma run_wallet_op_local (self : loc) (op : WalletOp) (w : World) :
  local_state (run_wallet_op self op w).2 = local_state w.
Proof. rewrite run_wallet_op_exec. apply exec_on_proxy_local. Qed.

Lemma issue_token_owner (self owner : loc) (amount reissue : pyval) (w : World) :
  pool_heap w !! self = Some (MkPool (Some owner)) ->
  issue_token self amount reissue w
  = exec_on_proxy owner "issueasset" [amount; reissue] w.
Proof.
  intros Hpool. unfold issue_token, get__vault_wallet, get_pool_obj.
  step_bind. rewrite Hpool. reflexivity.
Qed.

Lemma run_pool_op_local (self : loc) (op : PoolOp) (w : World) :
  local_state (run_pool_op self op w).2 = local_state w.
Proof.
  destruct op as [|amount reissue]; unfold run_pool_op, vaul_wallet, issue_token,
    get__vault_wallet, get_pool_obj; step_bind.
  - destruct (pool_heap w !! self) as [[[l|]]|]; reflexivity.
  - destruct (pool_heap w !! self) as [[[l|]]|]; cbn; try reflexivity.
    pose proof (exec_on_proxy_local l "issueasset" [amount; reissue] w) as H.
    destruct (exec_on_proxy l "issueasset" [amount; reissue] w) as [[v|e] w'];
      exact H.
Qed.

Lemma step_local (w : World) (a : Action) :
  local_state (step w a) = local_state w.
Proof.
  destruct a; [apply run_wallet_op_local | apply run_pool_op_local].
Qed.

Lemma run_actions_local (acts : list Action) (w : World) :
  local_state (run_actions w acts) = local_state w.
Proof.
  revert w. induction acts as [|a acts IH]; intros w; cbn.
  - reflexivity.
  - unfold run_actions in IH. rewrite IH. apply step_local.
Qed.

(** C5.  Every operation of a wallet, and the issuance of a pool owned by
    it, runs through the executor as one request on the wallet's
    connection: the operation's RPC name with the arguments in the order
    given and unmodified; the node's decoded result is what the caller
    gets, a rejection comes back as the classified failure. *)
Theorem executor_forwards_arguments_and_result
    (w : World) (self : loc) (o : WalletObj) (c : Conn) :
  wallet_heap w !! self = Some o ->
  _proxy o = Some (PyProxy c) ->
  (forall name args,
      _wrapper_executor (Callable c name) args w = forwarded c name args w) /\
  (forall op,
      run_wallet_op self op w
      = forwarded c (op_request op).1 (op_request op).2 w) /\
  (forall pool amount reissue,
      pool_heap w !! pool = Some (MkPool (Some self)) ->
      issue_token pool amount reissue w
      = forwarded c "issueasset" [amount; reissue] w).
Proof.
  intros Hself Hproxy. split; [|split].
  - intros name args. apply wrapper_executor_forwarded.
  - intros op. rewrite run_wallet_op_exec.
    eapply exec_on_proxy_forwarded; eassumption.
  - intros pool amount reissue Hpool.
    rewrite (issue_token_owner _ _ _ _ _ Hpool).
    eapply exec_on_proxy_forwarded; eassumption.
Qed.

(** C8.  An operation of a constructed wallet, whether it returns or
    raises, changes no object of the layer: the wallet's metadata record
    and connection reference are the ones it had before the call, and so
    are all other heaps and the session registry. *)
Theorem wallet_operation_keeps_local_state
    (self : loc) (op : WalletOp) (w : World) :
  let w' := (run_wallet_op self op w).2 in
  wallet_heap w' !! self = wallet_heap w !! self /\
  local_state w' = local_state w.
Proof.
  intros w'. pose proof (run_wallet_op_local self op w) as H.
  split; [|exact H].
  unfold local_state in H. subst w'. congruence.
Qed.

(** C10.  The create-wallet request calls [Wallet()] without the required
    connection argument: it raises [TypeError] at the binding of the
    arguments, whatever the world; nothing is sent to the node, and the
    session registry and every existing object stay as they were. *)
Theorem post_create_wallet_always_fails (w : World) :
  let out := post_create_wallet w in
  out.1 = Raise (TypeError
    "Wallet.__init__() missing 1 required positional argument: 'proxy_service'") /\
  node out.2 = node w /\
  rpc_log out.2 = rpc_log w /\
  session_wallets out.2 = session_wallets w /\
  active_service out.2 = active_service w /\
  (forall l o, wallet_heap w !! l = Some o -> wallet_heap out.2 !! l = Some o).
Proof.
  unfold post_create_wallet, Wallet_new, new_wallet_obj. run.
  repeat split; try reflexivity.
  intros l o Hl. apply lookup_app_l_Some. exact Hl.
Qed.

(** *** Pools *)

Lemma Pool_new_eq (input_wallet : loc) (w : World) :
  Pool_new input_wallet w
  = (Ok (length (pool_heap w)),
     with_pool_heap w (pool_heap w ++ [MkPool (Some input_wallet)])).
Proof.
  unfold Pool_new, Pool__init__, new_pool_obj, set__vault_wallet, get_pool_obj.
  run. reflexivity.
Qed.

(** C9.  A pool is constructed owning exactly the wallet it is given, and
    after any history of wallet and pool operations it still does: the
    owner getter answers that wallet, and an issuance is the executor
    call of that wallet on that wallet's connection. *)
Theorem pool_owner_is_fixed
    (input_wallet : loc) (acts : list Action) (w : World) :
  exists self w0,
    Pool_new input_wallet w = (Ok self, w0) /\
    pool_heap w0 !! self = Some (MkPool (Some input_wallet)) /\
    let w1 := run_actions w0 acts in
    pool_heap w1 !! self = Some (MkPool (Some input_wallet)) /\
    vaul_wallet self w1 = (Ok input_wallet, w1) /\
    (forall op, pool_heap (run_pool_op self op w1).2 = pool_heap w1) /\
    (forall amount reissue,
        issue_token self amount reissue w1
        = exec_on_proxy input_wallet "issueasset" [amount; reissue] w1).
Proof.
  eexists _, _. split; [apply Pool_new_eq|].
  assert (Hnew : pool_heap
                   (with_pool_heap w (pool_heap w ++ [MkPool (Some input_wallet)]))
                 !! length (pool_heap w) = Some (MkPool (Some input_wallet)))
    by apply heap_lookup_fresh.
  split; [exact Hnew|].
  intros w1.
  assert (Hkept : pool_heap w1 !! length (pool_heap w)
                  = Some (MkPool (Some input_wallet))).
  { pose proof (run_actions_local acts
      (with_pool_heap w (pool_heap w ++ [MkPool (Some input_wallet)]))) as H.
    unfold local_state in H. subst w1.
    replace (pool_heap (run_actions _ acts)) with
      (pool_heap (with_pool_heap w (pool_heap w ++ [MkPool (Some input_wallet)])))
      by congruence.
    exact Hnew. }
  clearbody w1.
  split; [exact Hkept|]. split; [|split].
  - unfold vaul_wallet, get__vault_wallet, get_pool_obj. step_bind.
    rewrite Hkept. reflexivity.
  - intros op. pose proof (run_pool_op_local (length (pool_heap w)) op w1) as H.
    unfold local_state in H. congruence.
  - intros amount reissue. apply issue_token_owner. exact Hkept.
Qed.

(** C6, as amended.  An issuance sends its two amounts to [issueasset]
    exactly as the caller gave them, in order and without parsing: two
    issuances send the same argument values only when they are given the
    same values. *)
Theorem issue_token_forwards_amounts_as_given
    (w : World) (pool owner : loc) (o : WalletObj) (c : Conn)
    (amount reissue amount' reissue' : pyval) :
  pool_heap w !! pool = Some (MkPool (Some owner)) ->
  wallet_heap w !! owner = Some o ->
  _proxy o = Some (PyProxy c) ->
  let sent_by a r := request <$> last (rpc_log (issue_token pool a r w).2) in
  sent_by amount reissue = Some (Call c "issueasset" [amount; reissue]) /\
  (sent_by amount reissue = sent_by amount' reissue'
   <-> amount = amount' /\ reissue = reissue').
Proof.
  intros Hpool Howner Hproxy sent_by.
  assert (Hsent : forall a r,
             sent_by a r = Some (Call c "issueasset" [a; r])).
  { intros a r. unfold sent_by.
    rewrite (issue_token_owner _ _ _ _ _ Hpool).
    rewrite (exec_on_proxy_forwarded _ _ _ _ _ _ Howner Hproxy).
    unfold forwarded.
    destruct (node_rpc (node w) (Call c "issueasset" [a; r])) as [rep n'].
    cbn. rewrite last_snoc. reflexivity. }
  split; [apply Hsent|].
  rewrite !Hsent. split.
  - intros H. injection H as -> ->. split; reflexivity.
  - intros [-> ->]. reflexivity.
Qed.

(** *** Resolving the active connection *)

(** With a registered Service the resolution answers the connection of
    the entry registered last and changes nothing. *)
Lemma check_for_proxy_registered (depth : nat) (w : World)
    (older : list (loc * pyval)) (s : loc) (c : pyval) :
  active_service w = older ++ [(s, c)] ->
  _check_for_proxy (S depth) w = (Ok c, w).
Proof.
  intros Hreg. cbn [_check_for_proxy]. unfold get_active_service, py_last.
  step_bind. rewrite Hreg, length_app. cbn [length].
  replace (length older + 1 =? 0)%nat with false
    by (symmetry; apply Nat.eqb_neq; lia).
  cbn [negb]. rewrite last_snoc. reflexivity.
Qed.

(** C1, on the code.  From an empty registry the resolution registers
    exactly one new default Service with its connection and retries once,
    but the value of the retry is dropped: the call returns [None].  Only
    the next resolution answers the registered connection. *)
Theorem check_for_proxy_empty_registry_returns_None (depth : nat) (w : World) :
  active_service w = [] ->
  let s := length (service_heap w) in
  let w' := MkWorld (node w) (rpc_log w) (urandom_pos w) (wallet_heap w)
              (pool_heap w) (service_heap w ++ [s]) [(s, PyProxy s)]
              (session_wallets w) in
  _check_for_proxy (S (S depth)) w = (Ok PyNone, w') /\
  _check_for_proxy (S depth) w' = (Ok (PyProxy s), w').
Proof.
  intros Hempty s w'. split.
  - cbn [_check_for_proxy]. unfold get_active_service, Service_new, get_proxy,
      update_active_service, py_last.
    step_bind. rewrite Hempty. cbn.
    rewrite heap_lookup_fresh. cbn. rewrite Hempty. reflexivity.
  - apply (check_for_proxy_registered depth w' [] s). reflexivity.
Qed.

(** C7, on the code.  With a wallet in the session the list-wallets
    request sends [listwalletdir] on that wallet's connection, and the
    node's listing is dropped: the request returns [None]. *)
Theorem get_wallet_drops_the_listing
    (depth : nat) (w : World) (older : list loc) (self : loc) (o : WalletObj)
    (c : Conn) (listing : pyval) (n' : NodeState) :
  session_wallets w = older ++ [self] ->
  wallet_heap w !! self = Some o ->
  _proxy o = Some (PyProxy c) ->
  node_rpc (node w) (Call c "listwalletdir" []) = (inl listing, n') ->
  list_wallets self w
  = (Ok listing, sent w (Exch (Call c "listwalletdir" []) (inl listing)) n') /\
  get_wallet depth w
  = (Ok PyNone, sent w (Exch (Call c "listwalletdir" []) (inl listing)) n').
Proof.
  intros Hsession Hself Hproxy Hnode.
  assert (Hlist : list_wallets self w
                  = (Ok listing,
                     sent w (Exch (Call c "listwalletdir" []) (inl listing)) n')).
  { unfold list_wallets.
    rewrite (exec_on_proxy_forwarded _ _ _ _ _ _ Hself Hproxy).
    unfold forwarded. rewrite Hnode. reflexivity. }
  split; [exact Hlist|].
  unfold get_wallet, get_session_wallets, py_last. step_bind.
  rewrite Hsession, length_app. cbn [length].
  replace (length older + 1 =? 0)%nat with false
    by (symmetry; apply Nat.eqb_neq; lia).
  cbn [negb]. rewrite last_snoc. cbn. rewrite Hlist. reflexivity.
Qed.

(** *** Lookup by label *)

Lemma label_matches_exact (w : World) (requested : string) (l : loc) :
  label_matches w requested l = true
  <-> exists kvs, metadata w l = Some (PyDict kvs)
                  /\ dict_get kvs "label" = Some (PyStr requested).
Proof.
  unfold label_matches. split.
  - destruct (metadata w l) as [[| | | | | | |kvs|]|]; try discriminate.
    destruct (dict_get kvs "label") as [[| | | |t| | | |]|] eqn:Hget;
      try discriminate.
    intros H. apply String.eqb_eq in H. subst t.
    exists kvs. split; [reflexivity | exact Hget].
  - intros (kvs & -> & ->). apply String.eqb_refl.
Qed.

(** On labelled wallets the comprehension is the filter. *)
Lemma wallets_labeled_filter (requested : string) (w : World) (ws : list loc) :
  Forall (has_label w) ws ->
  wallets_labeled ws requested w
  = (Ok (List.filter (label_matches w requested) ws), w).
Proof.
  induction 1 as [|l ws (kvs & v & Hmeta & Hlabel) _ IH]; [reflexivity|].
  cbn [wallets_labeled List.filter].
  unfold wallet, get_wallet_obj. step_bind.
  unfold label_matches. unfold metadata in Hmeta |- *.
  destruct (wallet_heap w !! l) as [o|]; [|discriminate].
  rewrite Hmeta. cbn [py_getitem]. rewrite Hlabel. rewrite IH.
  destruct v; reflexivity.
Qed.

(** C4, as amended.  When every session wallet's metadata is a record
    with a [label] field: with no session wallet the lookup fails as "no
    wallets loaded"; otherwise it answers the metadata record of the most
    recently created wallet whose label is exactly the requested string,
    and fails as "not found" when there is none; the two failures
    differ. *)
Theorem get_labeled_wallet_on_labelled_session
    (requested : string) (w : World) :
  Forall (has_label w) (session_wallets w) ->
  get_labeled_wallet requested w
  = (match session_wallets w with
     | [] => Raise no_wallet_loaded
     | _ :: _ =>
         match most_recent_match w requested with
         | Some l => match metadata w l with
                     | Some m => Ok m
                     | None => Raise label_not_found
                     end
         | None => Raise label_not_found
         end
     end, w) /\
  (forall l, most_recent_match w requested = Some l ->
             label_matches w requested l = true
             /\ exists m, metadata w l = Some m) /\
  no_wallet_loaded <> label_not_found.
Proof.
  intros Hlabelled. split; [|split].
  - unfold get_labeled_wallet, get_session_wallets. step_bind.
    destruct (session_wallets w) as [|l0 ws] eqn:Hsession; [reflexivity|].
    cbn [length Nat.eqb].
    rewrite (wallets_labeled_filter _ _ _ Hlabelled).
    unfold most_recent_match, py_last. rewrite Hsession.
    destruct (List.filter (label_matches w requested) (l0 :: ws))
      as [|m ms] eqn:Hfilter; [reflexivity|].
    cbn [length Nat.eqb negb]. step_bind.
    destruct (last (m :: ms)) as [l|] eqn:Hlast.
    + assert (Hin : In l (List.filter (label_matches w requested) (l0 :: ws))).
      { rewrite Hfilter. apply list_elem_of_In.
        apply last_Some_elem_of. exact Hlast. }
      apply filter_In in Hin as [Hin _].
      rewrite Forall_forall in Hlabelled.
      apply list_elem_of_In, Hlabelled in Hin as (kvs & v & Hmeta & _).
      unfold wallet, get_wallet_obj. step_bind.
      unfold metadata in Hmeta |- *.
      destruct (wallet_heap w !! l) as [o|]; [|discriminate].
      rewrite Hmeta. reflexivity.
    + apply last_None in Hlast. discriminate.
  - intros l Hlast. unfold most_recent_match in Hlast.
    apply last_Some_elem_of, list_elem_of_In, filter_In in Hlast as [_ Hmatch].
    split; [exact Hmatch|].
    apply label_matches_exact in Hmatch as (kvs & Hmeta & _). eauto.
  - discriminate.
Qed.

(** *** Construction modes *)

Lemma py_eq_str_true (v : pyval) (s : string) :
  py_eq_str v s = true -> v = PyStr s.
Proof.
  destruct v; try discriminate. cbn. intros H.
  apply String.eqb_eq in H. congruence.
Qed.

Lemma Wallet_new_default_mode (p : pyval) (lbl : option pyval)
    (addr : option bool) (w : World) :
  Wallet_new (MkArgs (Some p) None lbl addr) w
  = Wallet_new (MkArgs (Some p) (Some (PyStr "r")) lbl addr) w.
Proof. reflexivity. Qed.

Lemma Wallet_new_unknown_mode (p mode : pyval) (lbl : option pyval)
    (addr : option bool) (w : World) :
  py_eq_str mode "c" = false ->
  py_eq_str mode "r" = false ->
  py_eq_str mode "l" = false ->
  Wallet_new (MkArgs (Some p) (Some mode) lbl addr) w
  = (Raise (NotImplementedError "Provide a valid Wallet mode!"),
     with_wallet_heap w (wallet_heap w ++ [MkWallet (Some p) None])).
Proof.
  intros Hc Hr Hl.
  change (Wallet_new (MkArgs (Some p) (Some mode) lbl addr) w)
    with ((self <- new_wallet_obj ;;
           Wallet__init__ self p mode (default PyNone lbl) (default true addr) ;;;
           ret self) w).
  unfold Wallet__init__. rewrite Hc, Hr, Hl.
  unfold new_wallet_obj, set__proxy, get_wallet_obj. run. reflexivity.
Qed.

(** Without a connection in [proxy_service] a creation or load fails on
    the attribute access, before anything is sent. *)
Lemma Wallet_new_no_connection_sends_nothing (p mode : pyval)
    (lbl : option pyval) (addr : option bool) (w : World) :
  (forall c, p <> PyProxy c) ->
  mode = PyStr "c" \/ mode = PyStr "l" ->
  exists msg,
    (Wallet_new (MkArgs (Some p) (Some mode) lbl addr) w).1
    = Raise (AttributeError msg) /\
    rpc_log (Wallet_new (MkArgs (Some p) (Some mode) lbl addr) w).2 = rpc_log w /\
    node (Wallet_new (MkArgs (Some p) (Some mode) lbl addr) w).2 = node w.
Proof.
  intros Hp [-> | ->].
  - destruct p; try (contradiction (Hp _ eq_refl));
      (destruct (py_truthy (default PyNone lbl)) eqn:Hlbl; init_wallet;
       rewrite Hlbl; run_exec; eexists; repeat split; reflexivity).
  - destruct p; try (contradiction (Hp _ eq_refl));
      (init_wallet; eexists; repeat split; reflexivity).
Qed.

Ltac no_proxy md :=
  match goal with
  | out := Wallet_new (MkArgs (Some ?q) _ ?lbl ?addr) ?w |- _ =>
      let Hq := fresh "Hq" in
      assert (Hq : forall c, q <> PyProxy c) by discriminate;
      destruct (Wallet_new_no_connection_sends_nothing q md lbl addr w Hq)
        as (?msg & ?Hmsg & ?Hlog & ?Hnode);
      [first [left; reflexivity | right; reflexivity]|];
      split;
      [eexists; repeat split; eassumption
      |let Hok := fresh "Hok" in
       intros ? Hok; subst out; cbn [fst] in Hok;
       match goal with H : _.1 = Raise _ |- _ => rewrite H in Hok end;
       discriminate]
  end.

(** C2.  What a construction stores, mode by mode and for every reply of
    the node.  Create mode sends [createwallet] and, when an address is
    requested, [getnewaddress]; the wallet holds the node's result of the
    last of them, exactly as the node gave it, and a rejection of either
    request is raised with no metadata stored.  Load mode sends
    [loadwallet] and holds the node's result likewise.  Reference mode
    (also the default) sends nothing and holds the empty record.  Any
    other mode raises [NotImplementedError] at once: nothing is sent and
    no metadata is stored.  Without a connection create and load fail
    before anything is sent.  In short, a wallet that was constructed
    holds the empty record in reference mode and otherwise the node's
    last result. *)
Theorem wallet_construction_matches_mode
    (p : pyval) (mode_arg lbl : option pyval) (addr : option bool) (w : World) :
  let mode := default (PyStr "r") mode_arg in
  let out := Wallet_new (MkArgs (Some p) mode_arg lbl addr) w in
  let fresh := length (wallet_heap w) in
  let holding m := MkWallet (Some p) m in
  let no_connection :=
    exists msg, out.1 = Raise (AttributeError msg) /\
                rpc_log out.2 = rpc_log w /\ node out.2 = node w in
  (if py_eq_str mode "c" then
     match p with
     | PyProxy c =>
         let rq1 := Call c "createwallet"
                      [label_used lbl w; PyBool false; PyBool false] in
         let rq2 := Call c "getnewaddress" [] in
         let d := draws_used lbl in
         out = match node_rpc (node w) rq1 with
               | (inl v1, n1) =>
                   if default true addr then
                     match node_rpc n1 rq2 with
                     | (inl v2, n2) =>
                         (Ok fresh,
                          constructed w n2
                            [Exch rq1 (inl v1); Exch rq2 (inl v2)] d
                            (holding (Some v2)))
                     | (inr (code, msg), n2) =>
                         (Raise (RpcFailure code msg),
                          constructed w n2
                            [Exch rq1 (inl v1); Exch rq2 (inr (code, msg))] d
                            (holding None))
                     end
                   else
                     (Ok fresh,
                      constructed w n1 [Exch rq1 (inl v1)] d (holding (Some v1)))
               | (inr (code, msg), n1) =>
                   (Raise (RpcFailure code msg),
                    constructed w n1 [Exch rq1 (inr (code, msg))] d (holding None))
               end
     | _ => no_connection
     end
   else if py_eq_str mode "r" then
     out = (Ok fresh,
            with_wallet_heap w (wallet_heap w ++ [holding (Some (PyDict []))]))
   else if py_eq_str mode "l" then
     match p with
     | PyProxy c =>
         let rq := Call c "loadwallet" [default PyNone lbl] in
         out = match node_rpc (node w) rq with
               | (inl v, n1) =>
                   (Ok fresh,
                    constructed w n1 [Exch rq (inl v)] 0 (holding (Some v)))
               | (inr (code, msg), n1) =>
                   (Raise (RpcFailure code msg),
                    constructed w n1 [Exch rq (inr (code, msg))] 0 (holding None))
               end
     | _ => no_connection
     end
   else
     out = (Raise (NotImplementedError "Provide a valid Wallet mode!"),
            with_wallet_heap w (wallet_heap w ++ [holding None]))) /\
  (forall self, out.1 = Ok self ->
     self = fresh /\
     if py_eq_str mode "r" then
       metadata out.2 self = Some (PyDict []) /\ rpc_log out.2 = rpc_log w
     else
       exists xs x v,
         rpc_log out.2 = rpc_log w ++ xs ++ [x] /\
         reply x = inl v /\
         metadata out.2 self = Some v).
Proof.
  intros mode out fresh holding no_connection.
  assert (Hmeta : forall n xs d v,
             metadata (constructed w n xs d (holding (Some v))) fresh = Some v).
  { intros n xs d v. unfold metadata, constructed. cbn [wallet_heap].
    subst fresh. rewrite heap_lookup_fresh. reflexivity. }
  assert (Hreference :
            Wallet_new (MkArgs (Some p) (Some (PyStr "r")) lbl addr) w
            = (Ok fresh,
               with_wallet_heap w (wallet_heap w ++ [holding (Some (PyDict []))])))
    by apply Wallet_new_reference.
  assert (Hstored : metadata
                      (with_wallet_heap w
                         (wallet_heap w ++ [holding (Some (PyDict []))])) fresh
                    = Some (PyDict [])).
  { unfold metadata. cbn [wallet_heap with_wallet_heap].
    subst fresh. rewrite heap_lookup_fresh. reflexivity. }
  destruct mode_arg as [m|]; subst mode;
    [change (default (PyStr "r") (Some m)) with m|].
  2:{ change (default (PyStr "r") None) with (PyStr "r").
      cbn [py_eq_str String.eqb Ascii.eqb Bool.eqb].
      subst out. rewrite Wallet_new_default_mode, Hreference. cbn [fst snd].
      split; [reflexivity|]. intros self [= <-].
      split; [reflexivity|]. split; [exact Hstored|reflexivity]. }
  destruct (py_eq_str m "c") eqn:Hc.
  - apply py_eq_str_true in Hc. subst m.
    cbn [py_eq_str String.eqb Ascii.eqb Bool.eqb].
    destruct p as [| | | | | | | |c]; try no_proxy (PyStr "c").
    subst out. rewrite Wallet_new_create. cbv zeta.
    destruct (node_rpc (node w) _) as [[v1|[code msg]] n1];
      [|split; [reflexivity|intros self; discriminate]].
    destruct (default true addr).
    + destruct (node_rpc n1 _) as [[v2|[code msg]] n2];
        [|split; [reflexivity|intros self; discriminate]].
      split; [reflexivity|]. cbn [fst snd]. intros self [= <-].
      split; [reflexivity|]. eexists [_], _, v2. cbn [app].
      split; [reflexivity|]. split; [reflexivity|]. apply Hmeta.
    + split; [reflexivity|]. cbn [fst snd]. intros self [= <-].
      split; [reflexivity|]. eexists [], _, v1. cbn [app].
      split; [reflexivity|]. split; [reflexivity|]. apply Hmeta.
  - destruct (py_eq_str m "r") eqn:Hr.
    + apply py_eq_str_true in Hr. subst m. subst out. rewrite Hreference.
      cbn [fst snd]. split; [reflexivity|]. intros self [= <-].
      split; [reflexivity|]. split; [exact Hstored|reflexivity].
    + destruct (py_eq_str m "l") eqn:Hl.
      * apply py_eq_str_true in Hl. subst m.
        destruct p as [| | | | | | | |c]; try no_proxy (PyStr "l").
        subst out. rewrite Wallet_new_load. cbv zeta.
        destruct (node_rpc (node w) _) as [[v|[code msg]] n1];
          [|split; [reflexivity|intros self; discriminate]].
        split; [reflexivity|]. cbn [fst snd]. intros self [= <-].
        split; [reflexivity|]. eexists [], _, v. cbn [app].
        split; [reflexivity|]. split; [reflexivity|]. apply Hmeta.
      * subst out. rewrite Wallet_new_unknown_mode by assumption.
        split; [reflexivity|]. intros self; discriminate.
Qed.

(** C3.  A wallet constructed in create mode with no label supplied sent
    [createwallet(<label>, False, False)] first, the label being a well
    formed UUID string; with an address requested it then sent
    [getnewaddress()], nothing else, and holds that result as its
    metadata; with no address requested it sent nothing more and holds
    the result of [createwallet]. *)
Theorem create_mode_requests_in_order
    (c : Conn) (addr : option bool) (w w' : World) (self : loc) :
  let lbl := UUID.str_of_int (UUID.uuid4_int (urandom (urandom_pos w))) in
  let rq1 := Call c "createwallet" [PyStr lbl; PyBool false; PyBool false] in
  let rq2 := Call c "getnewaddress" [] in
  Wallet_new (MkArgs (Some (PyProxy c)) (Some (PyStr "c")) None addr) w
  = (Ok self, w') ->
  UUID.is_uuid_string lbl = true /\
  exists v1 n1,
    node_rpc (node w) rq1 = (inl v1, n1) /\
    if default true addr then
      exists v2 n2,
        node_rpc n1 rq2 = (inl v2, n2) /\
        rpc_log w' = rpc_log w ++ [Exch rq1 (inl v1); Exch rq2 (inl v2)] /\
        wallet_heap w' !! self = Some (MkWallet (Some (PyProxy c)) (Some v2))
    else
      rpc_log w' = rpc_log w ++ [Exch rq1 (inl v1)] /\
      wallet_heap w' !! self = Some (MkWallet (Some (PyProxy c)) (Some v1)).
Proof.
  intros lbl rq1 rq2 Hnew.
  split; [apply str_of_int_well_formed|].
  rewrite Wallet_new_create in Hnew.
  change (label_used None w) with (PyStr lbl) in Hnew.
  fold rq1 rq2 in Hnew.
  destruct (node_rpc (node w) rq1) as [[v1|[code msg]] n1]; [|discriminate].
  exists v1, n1. split; [reflexivity|].
  destruct (default true addr).
  - destruct (node_rpc n1 rq2) as [[v2|[code msg]] n2]; [|discriminate].
    injection Hnew as <- <-. exists v2, n2.
    split; [reflexivity|]. split; [reflexivity|]. apply heap_lookup_fresh.
  - injection Hnew as <- <-.
    split; [reflexivity|]. apply heap_lookup_fresh.
Qed.

(** *** The session's wallet list *)

Lemma keeps_session_ret {A} (a : A) : keeps_session (ret a).
Proof. intros w. reflexivity. Qed.

Lemma keeps_session_raise {A} (e : exn) : keeps_session (@raise A e).
Proof. intros w. reflexivity. Qed.

Lemma keeps_session_lift {A} (r : res A) : keeps_session (lift r).
Proof. intros w. reflexivity. Qed.

Lemma keeps_session_bind {A B} (m : M A) (k : A -> M B) :
  keeps_session m -> (forall a, keeps_session (k a)) ->
  keeps_session (bind m k).
Proof.
  intros Hm Hk w. unfold bind. specialize (Hm w).
  destruct (m w) as [[a|e] w1]; cbn [snd] in *; [|exact Hm].
  rewrite Hk. exact Hm.
Qed.

Lemma keeps_session_local {A} (m : M A) :
  (forall w, local_state (m w).2 = local_state w) -> keeps_session m.
Proof.
  intros H w. specialize (H w). unfold local_state in H. congruence.
Qed.

Lemma keeps_session_exec (self : loc) (name : string) (args : list pyval) :
  keeps_session (exec_on_proxy self name args).
Proof. apply keeps_session_local. apply exec_on_proxy_local. Qed.

Lemma keeps_session_get_wallet_obj (self : loc) :
  keeps_session (get_wallet_obj self).
Proof.
  intros w. unfold get_wallet_obj. destruct (wallet_heap w !! self); reflexivity.
Qed.

Lemma keeps_session_get_pool_obj (self : loc) :
  keeps_session (get_pool_obj self).
Proof.
  intros w. unfold get_pool_obj. destruct (pool_heap w !! self); reflexivity.
Qed.

Lemma keeps_session_get_proxy (_service : loc) :
  keeps_session (get_proxy _service).
Proof.
  intros w. unfold get_proxy. destruct (service_heap w !! _service); reflexivity.
Qed.

Lemma keeps_session_py_last {A} (xs : list A) : keeps_session (py_last xs).
Proof. intros w. unfold py_last. destruct (last xs); reflexivity. Qed.

Ltac keeps :=
  repeat first
    [ apply keeps_session_ret | apply keeps_session_raise
    | apply keeps_session_lift | apply keeps_session_exec
    | apply keeps_session_get_wallet_obj | apply keeps_session_get_pool_obj
    | apply keeps_session_get_proxy | apply keeps_session_py_last
    | apply keeps_session_bind; [|intros ?]
    | match goal with
      | |- keeps_session (if ?b then _ else _) => destruct b
      | |- keeps_session (match ?x with _ => _ end) => destruct x
      end
    | (intros ?; reflexivity) ].

Lemma keeps_session_Wallet_new (a : WalletArgs) : keeps_session (Wallet_new a).
Proof.
  unfold Wallet_new, Wallet__init__, new_wallet_obj, set__proxy, set__wallet,
    _create_wallet, load_wallet, uuid4_str, wallet, proxy.
  keeps.
Qed.

Lemma keeps_session_Pool_new (input_wallet : loc) :
  keeps_session (Pool_new input_wallet).
Proof.
  unfold Pool_new, Pool__init__, new_pool_obj, set__vault_wallet. keeps.
Qed.

Lemma keeps_session_check_for_proxy (depth : nat) :
  keeps_session (_check_for_proxy depth).
Proof.
  induction depth as [|depth IH]; cbn [_check_for_proxy];
    unfold get_active_service, Service_new, update_active_service; keeps.
  exact IH.
Qed.

Lemma keeps_session_get_wallet (depth : nat) : keeps_session (get_wallet depth).
Proof.
  unfold get_wallet, get_session_wallets, list_wallets.
  apply keeps_session_bind; [intros w; reflexivity|intros ws].
  apply keeps_session_bind; [|intros l; keeps].
  destruct (negb (length ws =? 0)%nat); [apply keeps_session_py_last|].
  apply keeps_session_bind; [apply keeps_session_check_for_proxy|intros p].
  apply keeps_session_Wallet_new.
Qed.

Lemma reads_only_wallets_labeled (ws : list loc) (requested : string) :
  reads_only (wallets_labeled ws requested).
Proof.
  induction ws as [|l ws IH]; intros w; [reflexivity|].
  cbn [wallets_labeled]. unfold wallet, get_wallet_obj. step_bind.
  destruct (wallet_heap w !! l) as [[p [m|]]|]; cbn; try reflexivity.
  destruct (py_getitem m "label"); cbn; [|reflexivity].
  specialize (IH w). destruct (wallets_labeled ws requested w) as [[tl|e] w1];
    cbn in *; exact IH.
Qed.

Lemma step_keeps_session (w : World) (a : Action) :
  session_wallets (step w a) = session_wallets w.
Proof.
  pose proof (step_local w a) as H. unfold local_state in H. congruence.
Qed.

(** The lookup by label only reads: whatever it answers or raises, the
    node is sent nothing and no object or registry entry changes. *)
Theorem get_labeled_wallet_only_reads (requested : string) (w : World) :
  (get_labeled_wallet requested w).2 = w.
Proof.
  unfold get_labeled_wallet, get_session_wallets. step_bind.
  destruct (length (session_wallets w) =? 0)%nat; [reflexivity|].
  pose proof (reads_only_wallets_labeled (session_wallets w) requested w) as H.
  destruct (wallets_labeled (session_wallets w) requested w) as [[ws|e] w1];
    cbn [snd] in *; subst w1; [|reflexivity].
  destruct (negb (length ws =? 0)%nat); [|reflexivity].
  unfold py_last, wallet, get_wallet_obj. step_bind.
  destruct (last ws) as [l|]; cbn; [|reflexivity].
  destruct (wallet_heap w !! l) as [[p [m|]]|]; reflexivity.
Qed.

(** No construction, operation, resolution or request of the layer puts a
    wallet into the session's list: after any history of them the list is
    the one the history started with.  A session that starts without
    wallets therefore answers every lookup by label with "no wallets
    loaded". *)
Theorem session_wallets_never_change
    (depth : nat) (evs : list Event) (w : World) :
  session_wallets (run_events depth w evs) = session_wallets w /\
  (session_wallets w = [] ->
   forall requested,
     get_labeled_wallet requested (run_events depth w evs)
     = (Raise no_wallet_loaded, run_events depth w evs)).
Proof.
  assert (Hkept : session_wallets (run_events depth w evs) = session_wallets w).
  { revert w. induction evs as [|e evs IH]; intros w; [reflexivity|].
    cbn [run_events foldl]. fold (run_events depth (run_event depth w e) evs).
    rewrite IH. destruct e as [a|l|a| | |s|]; cbn [run_event].
    - apply keeps_session_Wallet_new.
    - apply keeps_session_Pool_new.
    - apply step_keeps_session.
    - apply keeps_session_check_for_proxy.
    - apply keeps_session_get_wallet.
    - rewrite get_labeled_wallet_only_reads. reflexivity.
    - unfold post_create_wallet.
      apply (keeps_session_bind _ _ (keeps_session_Wallet_new _)).
      intros ?. apply keeps_session_ret. }
  split; [exact Hkept|].
  intros Hempty requested. rewrite Hempty in Hkept.
  unfold get_labeled_wallet, get_session_wallets. step_bind.
  rewrite Hkept. reflexivity.
Qed.

(** *** Resolution, once more *)

Lemma check_for_proxy_from_empty (depth : nat) (w : World) :
  active_service w = [] ->
  let s := length (service_heap w) in
  _check_for_proxy (S (S depth)) w
  = (Ok PyNone,
     MkWorld (node w) (rpc_log w) (urandom_pos w) (wallet_heap w) (pool_heap w)
       (service_heap w ++ [s]) [(s, PyProxy s)] (session_wallets w)).
Proof.
  intros Hempty s. cbn [_check_for_proxy].
  unfold get_active_service, Service_new, get_proxy, update_active_service, py_last.
  step_bind. rewrite Hempty. cbn.
  rewrite heap_lookup_fresh. cbn. rewrite Hempty. reflexivity.
Qed.

(** After one resolution, whatever the registry held before, every later
    resolution answers one and the same connection and changes nothing;
    the first resolution registered a Service only if the registry was
    empty, and then exactly one. *)
Theorem resolution_settles (depth : nat) (w : World) :
  let w1 := (_check_for_proxy (S (S depth)) w).2 in
  length (active_service w1) = Nat.max 1 (length (active_service w)) /\
  exists c, forall depth', _check_for_proxy (S depth') w1 = (Ok c, w1).
Proof.
  intros w1. subst w1.
  destruct (active_service w) as [|kv reg] eqn:Hreg.
  - rewrite (check_for_proxy_from_empty depth w Hreg). cbn [snd].
    split; [reflexivity|]. exists (PyProxy (length (service_heap w))).
    intros depth'.
    apply (check_for_proxy_registered depth' _ [] (length (service_heap w))).
    reflexivity.
  - destruct (exists_last (l := kv :: reg)) as (older & [s c] & Hsnoc);
      [discriminate|].
    rewrite Hsnoc in Hreg.
    rewrite (check_for_proxy_registered _ w older s c Hreg). cbn [snd].
    split; [rewrite Hreg, <- Hsnoc; cbn; lia|].
    exists c. intros depth'. apply (check_for_proxy_registered _ w older s c Hreg).
Qed.

(** *** More on construction *)

(** Whatever the mode, a construction that returns has appended exactly
    one object to the heap. *)
Lemma Wallet_new_success_shape
    (p : pyval) (mode lbl : option pyval) (addr : option bool)
    (w w' : World) (self : loc) :
  Wallet_new (MkArgs (Some p) mode lbl addr) w = (Ok self, w') ->
  self = length (wallet_heap w) /\
  exists m, wallet_heap w' = wallet_heap w ++ [MkWallet (Some p) (Some m)].
Proof.
  intros Hnew.
  destruct mode as [m|];
    [|rewrite Wallet_new_default_mode, Wallet_new_reference in Hnew;
      injection Hnew as <- <-; split; [reflexivity|eexists; reflexivity]].
  assert (Hproxy : (exists c, p = PyProxy c) \/ (forall c, p <> PyProxy c)).
  { destruct p; try (right; discriminate). left. eexists. reflexivity. }
  destruct (py_eq_str m "c") eqn:Hc; [|destruct (py_eq_str m "l") eqn:Hl;
                                       [|destruct (py_eq_str m "r") eqn:Hr]].
  - apply py_eq_str_true in Hc. subst m. destruct Hproxy as [[c ->]|Hp].
    + rewrite Wallet_new_create in Hnew.
      destruct (node_rpc (node w) _) as [[v1|[code msg]] n1]; [|discriminate].
      destruct (default true addr).
      * destruct (node_rpc n1 _) as [[v2|[code msg]] n2]; [|discriminate].
        injection Hnew as <- <-. split; [reflexivity|eexists; reflexivity].
      * injection Hnew as <- <-. split; [reflexivity|eexists; reflexivity].
    + destruct (Wallet_new_no_connection p (PyStr "c") lbl addr w Hp) as [msg Hmsg];
        [left; reflexivity|].
      rewrite Hnew in Hmsg. discriminate.
  - apply py_eq_str_true in Hl. subst m. destruct Hproxy as [[c ->]|Hp].
    + rewrite Wallet_new_load in Hnew.
      destruct (node_rpc (node w) _) as [[v1|[code msg]] n1]; [|discriminate].
      injection Hnew as <- <-. split; [reflexivity|eexists; reflexivity].
    + destruct (Wallet_new_no_connection p (PyStr "l") lbl addr w Hp) as [msg Hmsg];
        [right; reflexivity|].
      rewrite Hnew in Hmsg. discriminate.
  - apply py_eq_str_true in Hr. subst m. rewrite Wallet_new_reference in Hnew.
    injection Hnew as <- <-. split; [reflexivity|eexists; reflexivity].
  - rewrite Wallet_new_unknown_mode in Hnew by assumption. discriminate.
Qed.

(** A constructed wallet reads back what it was built from: the getter
    [proxy] answers the very value passed as [proxy_service], the getter
    [wallet] the metadata stored, neither changes anything, and every
    object that existed before the construction is untouched. *)
Theorem constructed_wallet_reads_back
    (p : pyval) (mode lbl : option pyval) (addr : option bool)
    (w w' : World) (self : loc) :
  Wallet_new (MkArgs (Some p) mode lbl addr) w = (Ok self, w') ->
  proxy self w' = (Ok p, w') /\
  (exists m, wallet self w' = (Ok m, w') /\ metadata w' self = Some m) /\
  length (wallet_heap w') = S (length (wallet_heap w)) /\
  (forall l o, wallet_heap w !! l = Some o -> wallet_heap w' !! l = Some o).
Proof.
  intros Hnew.
  destruct (Wallet_new_success_shape _ _ _ _ _ _ _ Hnew) as (-> & m & Hheap).
  assert (Hself : wallet_heap w' !! length (wallet_heap w)
                  = Some (MkWallet (Some p) (Some m)))
    by (rewrite Hheap; apply heap_lookup_fresh).
  split; [|split; [|split]].
  - unfold proxy, get_wallet_obj. step_bind. rewrite Hself. reflexivity.
  - exists m. split.
    + unfold wallet, get_wallet_obj. step_bind. rewrite Hself. reflexivity.
    + unfold metadata. rewrite Hself. reflexivity.
  - rewrite Hheap, length_app. cbn. lia.
  - intros l o Hl. rewrite Hheap. apply lookup_app_l_Some. exact Hl.
Qed.

(** In create mode a label that is supplied and not empty goes to
    [createwallet] as it is and no random number is drawn; a label that is
    supplied but empty (the empty string, [None]) is replaced by a freshly
    drawn, well formed UUID string. *)
Theorem create_mode_label_choice
    (c : Conn) (lbl : pyval) (addr : option bool) (w : World) :
  let out := Wallet_new (MkArgs (Some (PyProxy c)) (Some (PyStr "c")) (Some lbl)
                           addr) w in
  let first := request <$> (rpc_log out.2 !! length (rpc_log w)) in
  if py_truthy lbl then
    first = Some (Call c "createwallet" [lbl; PyBool false; PyBool false]) /\
    urandom_pos out.2 = urandom_pos w
  else
    exists s,
      first = Some (Call c "createwallet" [PyStr s; PyBool false; PyBool false]) /\
      UUID.is_uuid_string s = true /\
      urandom_pos out.2 = S (urandom_pos w).
Proof.
  intros out first. subst first out. rewrite Wallet_new_create.
  unfold label_used, draws_used. cbn [default from_option id].
  destruct (py_truthy lbl).
  - destruct (node_rpc (node w) _) as [[v1|[code msg]] n1];
      [destruct (default true addr);
       [destruct (node_rpc n1 _) as [[v2|[code msg]] n2]|]|];
      (cbn [snd]; unfold constructed; cbn [rpc_log urandom_pos];
       rewrite (list_lookup_middle (rpc_log w)) by reflexivity;
       split; reflexivity).
  - eexists.
    destruct (node_rpc (node w) _) as [[v1|[code msg]] n1];
      [destruct (default true addr);
       [destruct (node_rpc n1 _) as [[v2|[code msg]] n2]|]|];
      (cbn [snd]; unfold constructed; cbn [rpc_log urandom_pos];
       rewrite (list_lookup_middle (rpc_log w)) by reflexivity;
       split; [reflexivity|];
       split; [apply str_of_int_well_formed|reflexivity]).
Qed.

(** Creation is not undone: when the node serves [createwallet] and then
    rejects [getnewaddress], the construction raises the rejection, the
    wallet stays created on the node, nothing more is sent, and the caller
    is left without a Wallet object. *)
Theorem create_mode_address_rejected
    (c : Conn) (lbl : option pyval) (w : World)
    (v1 : pyval) (n1 n2 : NodeState) (code : Z) (msg : string) :
  let rq1 := Call c "createwallet" [label_used lbl w; PyBool false; PyBool false] in
  let rq2 := Call c "getnewaddress" [] in
  node_rpc (node w) rq1 = (inl v1, n1) ->
  node_rpc n1 rq2 = (inr (code, msg), n2) ->
  let out := Wallet_new (MkArgs (Some (PyProxy c)) (Some (PyStr "c")) lbl None) w in
  out.1 = Raise (RpcFailure code msg) /\
  rpc_log out.2 = rpc_log w ++ [Exch rq1 (inl v1); Exch rq2 (inr (code, msg))] /\
  node out.2 = n2 /\
  session_wallets out.2 = session_wallets w.
Proof.
  intros rq1 rq2 H1 H2 out. subst out. rewrite Wallet_new_create.
  fold rq1 rq2. rewrite H1. cbn [default from_option id]. rewrite H2.
  repeat split; reflexivity.
Qed.

(** Reference mode does not look at [proxy_service]: any value that is not
    a connection is accepted, the construction sends nothing, and only the
    operations fail, each with [AttributeError] before anything is sent. *)
Theorem reference_wallet_without_connection
    (p : pyval) (lbl : option pyval) (addr : option bool) (w : World) :
  (forall c, p <> PyProxy c) ->
  let out := Wallet_new (MkArgs (Some p) None lbl addr) w in
  out.1 = Ok (length (wallet_heap w)) /\
  rpc_log out.2 = rpc_log w /\
  forall op, exists msg,
    run_wallet_op (length (wallet_heap w)) op out.2 = (Raise (AttributeError msg), out.2).
Proof.
  intros Hp out. subst out.
  rewrite Wallet_new_default_mode, Wallet_new_reference. cbn [fst snd].
  split; [reflexivity|]. split; [reflexivity|].
  intros op. rewrite run_wallet_op_exec.
  unfold exec_on_proxy, proxy, get_wallet_obj. step_bind.
  cbn [wallet_heap with_wallet_heap]. rewrite heap_lookup_fresh. cbn.
  destruct p; try (eexists; reflexivity). contradiction (Hp _ eq_refl).
Qed.

(** *** More on the lookup by label *)

Lemma wallets_labeled_stops (requested : string) (w : World)
    (labelled rest : list loc) (l : loc) (kvs : list (string * pyval)) :
  Forall (has_label w) labelled ->
  metadata w l = Some (PyDict kvs) ->
  dict_get kvs "label" = None ->
  wallets_labeled (labelled ++ l :: rest) requested w
  = (Raise (KeyError "label"), w).
Proof.
  intros Hlabelled Hmeta Hnone.
  induction Hlabelled as [|l0 ls (kvs0 & v0 & Hmeta0 & Hlabel0) _ IH];
    cbn [app wallets_labeled]; unfold wallet, get_wallet_obj; step_bind.
  - unfold metadata in Hmeta.
    destruct (wallet_heap w !! l) as [o|]; [|discriminate].
    rewrite Hmeta. cbn [py_getitem]. rewrite Hnone. reflexivity.
  - unfold metadata in Hmeta0.
    destruct (wallet_heap w !! l0) as [o|]; [|discriminate].
    rewrite Hmeta0. cbn [py_getitem]. rewrite Hlabel0. rewrite IH. reflexivity.
Qed.

(** One wallet without a label spoils every lookup: when the first session
    wallet whose metadata record lacks the [label] field comes after
    labelled ones only, the lookup raises [KeyError('label')] for every
    requested label, also for labels that other wallets carry. *)
Theorem get_labeled_wallet_KeyError
    (requested : string) (w : World)
    (labelled rest : list loc) (l : loc) (kvs : list (string * pyval)) :
  session_wallets w = labelled ++ l :: rest ->
  Forall (has_label w) labelled ->
  metadata w l = Some (PyDict kvs) ->
  dict_get kvs "label" = None ->
  get_labeled_wallet requested w = (Raise (KeyError "label"), w).
Proof.
  intros Hsession Hlabelled Hmeta Hnone.
  unfold get_labeled_wallet, get_session_wallets. step_bind.
  rewrite Hsession, length_app. cbn [length].
  replace (length labelled + S (length rest) =? 0)%nat with false
    by (symmetry; apply Nat.eqb_neq; lia).
  rewrite (wallets_labeled_stops _ _ _ _ _ _ Hlabelled Hmeta Hnone).
  reflexivity.
Qed.

(** *** Histories of one wallet *)

(** The request an operation stands for, on connection [c]. *)
Lemma wallet_op_appends_one (self : loc) (o : WalletObj) (c : Conn)
    (op : WalletOp) (w : World) :
  wallet_heap w !! self = Some o ->
  _proxy o = Some (PyProxy c) ->
  request <$> rpc_log (run_wallet_op self op w).2
  = (request <$> rpc_log w) ++ [Call c (op_request op).1 (op_request op).2].
Proof.
  intros Hself Hproxy. rewrite run_wallet_op_exec.
  rewrite (exec_on_proxy_forwarded _ _ _ _ _ _ Hself Hproxy).
  unfold forwarded.
  destruct (node_rpc (node w) _) as [rep n']. cbn [snd sent rpc_log].
  rewrite fmap_app. reflexivity.
Qed.

(** A history of operations on a wallet with a connection reaches the node
    as exactly one request per operation, in the order of the calls, each
    with the operation's name and arguments, whichever of them the node
    rejects: nothing is retried, skipped or reordered. *)
Theorem wallet_history_requests
    (self : loc) (o : WalletObj) (c : Conn) (ops : list WalletOp) (w : World) :
  wallet_heap w !! self = Some o ->
  _proxy o = Some (PyProxy c) ->
  request <$> rpc_log (run_actions w (WalletAct self <$> ops))
  = (request <$> rpc_log w)
    ++ ((fun op => Call c (op_request op).1 (op_request op).2) <$> ops).
Proof.
  revert w. induction ops as [|op ops IH]; intros w Hself Hproxy.
  - cbn. rewrite app_nil_r. reflexivity.
  - cbn [fmap list_fmap run_actions foldl step].
    fold (run_actions (run_wallet_op self op w).2 (WalletAct self <$> ops)).
    pose proof (run_wallet_op_local self op w) as Hlocal.
    unfold local_state in Hlocal.
    rewrite IH.
    + rewrite (wallet_op_appends_one _ _ _ _ _ Hself Hproxy), <- app_assoc.
      reflexivity.
    + replace (wallet_heap (run_wallet_op self op w).2) with (wallet_heap w)
        by congruence.
      exact Hself.
    + exact Hproxy.
Qed.

(** *** More on pools *)

(** A pool takes any wallet and claims no exclusive hold of it: building a
    pool cannot fail and sends nothing, and two pools built on one wallet
    are two objects that both answer that wallet as their owner. *)
Theorem pools_share_a_wallet (input_wallet : loc) (w : World) :
  exists p1 p2 w1 w2,
    Pool_new input_wallet w = (Ok p1, w1) /\
    Pool_new input_wallet w1 = (Ok p2, w2) /\
    p1 <> p2 /\
    vaul_wallet p1 w2 = (Ok input_wallet, w2) /\
    vaul_wallet p2 w2 = (Ok input_wallet, w2) /\
    rpc_log w2 = rpc_log w /\
    wallet_heap w2 = wallet_heap w.
Proof.
  eexists _, _, _, _. split; [apply Pool_new_eq|].
  split; [apply Pool_new_eq|].
  cbn [pool_heap with_pool_heap]. rewrite length_app. cbn [length].
  split; [lia|].
  unfold vaul_wallet, get__vault_wallet, get_pool_obj. step_bind.
  cbn [pool_heap with_pool_heap].
  split; [|split; [|split; reflexivity]].
  - rewrite lookup_app_l by (rewrite length_app; cbn; lia).
    rewrite heap_lookup_fresh. reflexivity.
  - replace (length (pool_heap w) + 1)
      with (length (pool_heap w ++ [MkPool (Some input_wallet)]))
      by (rewrite length_app; reflexivity).
    rewrite heap_lookup_fresh. reflexivity.
Qed.

(** *** The list-wallets request without a session wallet *)

Lemma get_wallet_without_session (depth : nat) (w : World) :
  session_wallets w = [] ->
  get_wallet depth w
  = (_proxy <- _check_for_proxy depth ;;
     _wallet <- Wallet_new (MkArgs (Some _proxy) None None (Some false)) ;;
     list_wallets _wallet ;;;
     ret PyNone) w.
Proof.
  intros Hsession. unfold get_wallet, get_session_wallets.
  unfold bind at 1. cbn [ret]. rewrite Hsession. cbn [length Nat.eqb negb].
  unfold bind. destruct (_check_for_proxy depth w) as [[p|e] w1]; [|reflexivity].
  destruct (Wallet_new _ w1) as [[l|e] w2]; reflexivity.
Qed.

(** With no wallet in the session and no Service registered the request
    registers one default Service, builds a reference wallet on the [None]
    the resolution returned, and fails on that wallet's first attribute
    access: it raises [AttributeError] and the node is sent nothing. *)
Theorem get_wallet_from_scratch_raises (depth : nat) (w : World) :
  session_wallets w = [] ->
  active_service w = [] ->
  let out := get_wallet (S (S depth)) w in
  (exists msg, out.1 = Raise (AttributeError msg)) /\
  rpc_log out.2 = rpc_log w /\
  active_service out.2
  = [(length (service_heap w), PyProxy (length (service_heap w)))] /\
  wallet_heap out.2 = wallet_heap w ++ [MkWallet (Some PyNone) (Some (PyDict []))].
Proof.
  intros Hsession Hreg out.
  assert (Hout : exists msg w',
             out = (Raise (AttributeError msg), w') /\
             rpc_log w' = rpc_log w /\
             active_service w'
             = [(length (service_heap w), PyProxy (length (service_heap w)))] /\
             wallet_heap w'
             = wallet_heap w ++ [MkWallet (Some PyNone) (Some (PyDict []))]).
  { subst out. rewrite (get_wallet_without_session _ _ Hsession).
    unfold bind at 1. rewrite (check_for_proxy_from_empty depth w Hreg).
    unfold bind at 1. rewrite Wallet_new_default_mode, Wallet_new_reference.
    unfold list_wallets, exec_on_proxy, proxy, get_wallet_obj. step_bind.
    cbn [wallet_heap with_wallet_heap]. rewrite heap_lookup_fresh. cbn.
    eexists _, _. repeat split; reflexivity. }
  destruct Hout as (msg & w' & -> & Hlog & Hservice & Hheap).
  split; [exists msg; reflexivity|]. repeat split; assumption.
Qed.

(** With no wallet in the session but a Service registered the request
    builds a fresh reference wallet on the connection registered last and
    sends [listwalletdir] there; the wallet is not put into the session,
    and the answer is [None], or the classified failure when the node
    rejects. *)
Theorem get_wallet_uses_registered_connection
    (depth : nat) (w : World) (older : list (loc * pyval)) (s : loc) (c : Conn) :
  session_wallets w = [] ->
  active_service w = older ++ [(s, PyProxy c)] ->
  let rq := Call c "listwalletdir" [] in
  let out := get_wallet (S depth) w in
  request <$> rpc_log out.2 = (request <$> rpc_log w) ++ [rq] /\
  wallet_heap out.2
  = wallet_heap w ++ [MkWallet (Some (PyProxy c)) (Some (PyDict []))] /\
  session_wallets out.2 = [] /\
  out.1 = match (node_rpc (node w) rq).1 with
          | inl _ => Ok PyNone
          | inr (code, msg) => Raise (RpcFailure code msg)
          end.
Proof.
  intros Hsession Hreg rq out.
  set (w1 := with_wallet_heap w
               (wallet_heap w ++ [MkWallet (Some (PyProxy c)) (Some (PyDict []))])).
  assert (Hout : out = (list_wallets (length (wallet_heap w)) ;;; ret PyNone) w1).
  { subst out. rewrite (get_wallet_without_session _ _ Hsession).
    unfold bind at 1. rewrite (check_for_proxy_registered depth w older s _ Hreg).
    unfold bind at 1. rewrite Wallet_new_default_mode, Wallet_new_reference.
    reflexivity. }
  rewrite Hout. unfold bind, list_wallets.
  rewrite (exec_on_proxy_forwarded _ "listwalletdir" [] w1
             (MkWallet (Some (PyProxy c)) (Some (PyDict []))) c)
    by (try apply heap_lookup_fresh; reflexivity).
  unfold forwarded. change (node w1) with (node w). fold rq.
  destruct (node_rpc (node w) rq) as [[v|[code msg]] n']; cbn;
    rewrite fmap_app, Hsession; repeat split; reflexivity.
Qed.

(** *** Getters over a history *)

(** Nothing populates a wallet after its construction: after any history of
    wallet and pool operations, [load_wallet] included, the getters
    [wallet] and [proxy] answer what they answered before it.  A wallet
    built in reference mode keeps the empty record. *)
Theorem wallet_getters_are_constant
    (self : loc) (o : WalletObj) (m p : pyval) (acts : list Action) (w : World) :
  wallet_heap w !! self = Some o ->
  _wallet o = Some m ->
  _proxy o = Some p ->
  let w' := run_actions w acts in
  wallet self w' = (Ok m, w') /\ proxy self w' = (Ok p, w').
Proof.
  intros Hself Hm Hp w'.
  assert (Hkept : wallet_heap w' !! self = Some o).
  { pose proof (run_actions_local acts w) as H. unfold local_state in H.
    subst w'. replace (wallet_heap (run_actions w acts)) with (wallet_heap w)
      by congruence.
    exact Hself. }
  clearbody w'. unfold wallet, proxy, get_wallet_obj. step_bind.
  rewrite Hkept, Hm, Hp. split; reflexivity.
Qed.

End Layer.

(** ** A concrete node *)

Module Demo.

(** A node that serves the wallet requests and rejects every other method;
    its state counts the requests served. *)
Definition rpc (n : nat) (rq : RpcCall) : (pyval + Z * string) * nat :=
  let m := call_method rq in
  let named := PyDict [("name", default PyNone (head (call_args rq)));
                       ("warning", PyStr EmptyString)] in
  (if String.eqb m "createwallet" then inl named
   else if String.eqb m "loadwallet" then inl named
   else if String.eqb m "getnewaddress" then inl (PyStr "addr1")
   else if String.eqb m "listwalletdir" then
     inl (PyDict [("wallets", PyList [PyDict [("name", PyStr "w1")]])])
   else if String.eqb m "getbalance" then inl (PyFloat 0)
   else if String.eqb m "sendtoaddress" then inl (PyStr "txid1")
   else if String.eqb m "issueasset" then
     inl (PyDict [("asset", PyStr "a1"); ("token", PyStr "t1")])
   else inr ((-32601)%Z, "Method not found"),
   S n).

Definition urandom (i : nat) : N := (0x0123456789abcdef0123456789abcdef + N.of_nat i)%N.

(** Process start: nothing registered, nothing allocated. *)
Definition start : World nat := MkWorld nat 0 [] 0 [] [] [] [] [].

Definition labelled_wallet (label note : string) : WalletObj :=
  MkWallet (Some (PyProxy 0))
    (Some (PyDict [("label", PyStr label); ("note", PyStr note)])).

(** A session of three wallets labelled a, b, a. *)
Definition session_aba : World nat :=
  MkWorld nat 0 [] 0
    [labelled_wallet "a" "first"; labelled_wallet "b" "second";
     labelled_wallet "a" "third"]
    [] [0] [(0, PyProxy 0)] [0; 1; 2].

(** A session of a labelled wallet and a reference-mode wallet. *)
Definition session_with_reference : World nat :=
  MkWorld nat 0 [] 0
    [labelled_wallet "a" "first"; MkWallet (Some (PyProxy 0)) (Some (PyDict []))]
    [] [0] [(0, PyProxy 0)] [0; 1].

(** One reference-mode wallet on connection 0, in the session, owning one
    pool. *)
Definition with_pool : World nat :=
  MkWorld nat 0 [] 0 [MkWallet (Some (PyProxy 0)) (Some (PyDict []))]
    [MkPool (Some 0)] [0] [(0, PyProxy 0)] [0].

End Demo.

(** ** The properties at the concrete node *)

(** C1 at process start: the first resolution returns [None]; the second
    one answers the connection the first registered. *)
Lemma check_for_proxy_empty_registry_witness :
  active_service nat Demo.start = [] /\
  _check_for_proxy nat 2 Demo.start
  = (Ok PyNone, MkWorld nat 0 [] 0 [] [] [0] [(0, PyProxy 0)] []) /\
  _check_for_proxy nat 1 (MkWorld nat 0 [] 0 [] [] [0] [(0, PyProxy 0)] [])
  = (Ok (PyProxy 0), MkWorld nat 0 [] 0 [] [] [0] [(0, PyProxy 0)] []).
Proof.
  split; [reflexivity|].
  exact (check_for_proxy_empty_registry_returns_None nat 0 Demo.start eq_refl).
Defined.

(** C7 with one wallet in the session: the wallet's own [list_wallets]
    answers the node's listing, the request answers [None]. *)
Lemma get_wallet_drops_the_listing_witness :
  let listing := PyDict [("wallets", PyList [PyDict [("name", PyStr "w1")]])] in
  (list_wallets nat Demo.rpc 0 Demo.with_pool).1 = Ok listing /\
  (get_wallet nat Demo.rpc Demo.urandom 2 Demo.with_pool).1 = Ok PyNone.
Proof.
  intros listing.
  destruct (get_wallet_drops_the_listing nat Demo.rpc Demo.urandom 2
              Demo.with_pool [] 0 _ 0 listing 1 eq_refl eq_refl eq_refl eq_refl)
    as [Hlist Hget].
  rewrite Hlist, Hget. split; reflexivity.
Defined.

(** C5 for [send_to_address("addr1", 1.5)] and for an issuance. *)
Lemma executor_forwards_witness :
  run_wallet_op nat Demo.rpc 0 (OpSendToAddress (PyStr "addr1") (PyFloat 1.5))
    Demo.with_pool
  = (Ok (PyStr "txid1"),
     sent nat Demo.with_pool
       (Exch (Call 0 "sendtoaddress" [PyStr "addr1"; PyFloat 1.5])
          (inl (PyStr "txid1"))) 1) /\
  (issue_token nat Demo.rpc 0 (PyStr "10") (PyStr "5") Demo.with_pool).1
  = Ok (PyDict [("asset", PyStr "a1"); ("token", PyStr "t1")]).
Proof.
  destruct (executor_forwards_arguments_and_result nat Demo.rpc Demo.with_pool
              0 _ 0 eq_refl eq_refl) as (_ & Hop & Hpool).
  split.
  - rewrite (Hop (OpSendToAddress (PyStr "addr1") (PyFloat 1.5))). reflexivity.
  - rewrite (Hpool 0 (PyStr "10") (PyStr "5") eq_refl). reflexivity.
Defined.

(** C6 as stated fails: the string amounts reach the node as strings, the
    decimal amounts as numbers. *)
Lemma issue_token_strings_and_numbers_differ :
  let sent_by a r :=
    call_args <$> (request <$>
      last (rpc_log nat (issue_token nat Demo.rpc 0 a r Demo.with_pool).2)) in
  sent_by (PyStr "10") (PyStr "5") = Some [PyStr "10"; PyStr "5"] /\
  sent_by (PyFloat 10) (PyFloat 5) = Some [PyFloat 10; PyFloat 5] /\
  sent_by (PyStr "10") (PyStr "5") <> sent_by (PyFloat 10) (PyFloat 5).
Proof.
  cbv zeta. split; [reflexivity|]. split; [reflexivity|].
  change (Some [PyStr "10"; PyStr "5"] <> Some [PyFloat 10; PyFloat 5]).
  discriminate.
Qed.

(** C6 as amended, at the same pool. *)
Lemma issue_token_forwards_amounts_witness :
  request <$> last (rpc_log nat
                      (issue_token nat Demo.rpc 0 (PyStr "10") (PyFloat 5)
                         Demo.with_pool).2)
  = Some (Call 0 "issueasset" [PyStr "10"; PyFloat 5]).
Proof.
  exact (proj1 (issue_token_forwards_amounts_as_given nat Demo.rpc Demo.with_pool
                  0 0 _ 0 (PyStr "10") (PyFloat 5) (PyStr "10") (PyFloat 5)
                  eq_refl eq_refl eq_refl)).
Defined.

(** C4 as stated fails: the first wallet is labelled a, yet with a
    reference-mode wallet in the session the lookup of a raises
    [KeyError], which is neither the wallet nor one of the two failure
    conditions. *)
Lemma get_labeled_wallet_reference_wallet_raises :
  label_matches nat Demo.session_with_reference "a" 0 = true /\
  get_labeled_wallet nat "a" Demo.session_with_reference
  = (Raise (KeyError "label"), Demo.session_with_reference).
Proof. split; reflexivity. Qed.

(** C4 as amended, on labels a, b, a: a answers the third wallet's record,
    c is not found. *)
Lemma get_labeled_wallet_witness :
  Forall (has_label nat Demo.session_aba) (session_wallets nat Demo.session_aba) /\
  (get_labeled_wallet nat "a" Demo.session_aba).1
  = Ok (PyDict [("label", PyStr "a"); ("note", PyStr "third")]) /\
  (get_labeled_wallet nat "c" Demo.session_aba).1 = Raise label_not_found /\
  (get_labeled_wallet nat "a" Demo.start).1 = Raise no_wallet_loaded.
Proof.
  assert (Haba : Forall (has_label nat Demo.session_aba)
                   (session_wallets nat Demo.session_aba)).
  { repeat constructor; eexists _, _; split; reflexivity. }
  split; [exact Haba|].
  split; [|split].
  - rewrite (proj1 (get_labeled_wallet_on_labelled_session nat "a"
                      Demo.session_aba Haba)). reflexivity.
  - rewrite (proj1 (get_labeled_wallet_on_labelled_session nat "c"
                      Demo.session_aba Haba)). reflexivity.
  - reflexivity.
Defined.

(** C2 at process start, one construction per mode: create with an
    address stores the address the node gave, create without one the
    record [createwallet] gave, load the record [loadwallet] gave,
    reference the empty record; an unknown mode raises. *)
Lemma wallet_construction_witness :
  let new mode addr :=
    Wallet_new nat Demo.rpc Demo.urandom
      (MkArgs (Some (PyProxy 0)) (Some (PyStr mode)) (Some (PyStr "w1")) addr)
      Demo.start in
  let named := PyDict [("name", PyStr "w1"); ("warning", PyStr EmptyString)] in
  new "c" (Some true)
  = (Ok 0,
     MkWorld nat 2
       [Exch (Call 0 "createwallet" [PyStr "w1"; PyBool false; PyBool false])
          (inl named);
        Exch (Call 0 "getnewaddress" []) (inl (PyStr "addr1"))]
       0 [MkWallet (Some (PyProxy 0)) (Some (PyStr "addr1"))] [] [] [] []) /\
  new "c" (Some false)
  = (Ok 0,
     MkWorld nat 1
       [Exch (Call 0 "createwallet" [PyStr "w1"; PyBool false; PyBool false])
          (inl named)]
       0 [MkWallet (Some (PyProxy 0)) (Some named)] [] [] [] []) /\
  new "l" None
  = (Ok 0,
     MkWorld nat 1 [Exch (Call 0 "loadwallet" [PyStr "w1"]) (inl named)]
       0 [MkWallet (Some (PyProxy 0)) (Some named)] [] [] [] []) /\
  new "r" None
  = (Ok 0,
     MkWorld nat 0 [] 0 [MkWallet (Some (PyProxy 0)) (Some (PyDict []))]
       [] [] [] []) /\
  new "x" None
  = (Raise (NotImplementedError "Provide a valid Wallet mode!"),
     MkWorld nat 0 [] 0 [MkWallet (Some (PyProxy 0)) None] [] [] [] []).
Proof.
  intros new named.
  pose proof (fun mode addr =>
    proj1 (wallet_construction_matches_mode nat Demo.rpc Demo.urandom (PyProxy 0)
             (Some (PyStr mode)) (Some (PyStr "w1")) addr Demo.start)) as H.
  split; [exact (H "c" (Some true))|].
  split; [exact (H "c" (Some false))|].
  split; [exact (H "l" None)|].
  split; [exact (H "r" None)|exact (H "x" None)].
Defined.

(** C3 at process start: the label drawn, the two requests in order, the
    address stored. *)
Lemma create_mode_requests_witness :
  let out := Wallet_new nat Demo.rpc Demo.urandom
               (MkArgs (Some (PyProxy 0)) (Some (PyStr "c")) None None)
               Demo.start in
  out.1 = Ok 0 /\
  request <$> rpc_log nat out.2
  = [Call 0 "createwallet"
       [PyStr "01234567-89ab-4def-8123-456789abcdef"; PyBool false; PyBool false];
     Call 0 "getnewaddress" []] /\
  metadata nat out.2 0 = Some (PyStr "addr1").
Proof.
  intros out.
  destruct (create_mode_requests_in_order nat Demo.rpc Demo.urandom 0 None
              Demo.start out.2 0 eq_refl)
    as (_ & v1 & n1 & _ & v2 & n2 & _ & Hlog & Hheap).
  split; [reflexivity|]. split.
  - rewrite Hlog. reflexivity.
  - reflexivity.
Defined.

(** ** The backend path *)

Lemma split_nonempty sep s : Main.split sep s <> [].
Proof.
  destruct s as [|c s]; cbn; [discriminate|].
  destruct (Ascii.eqb c sep); [discriminate|].
  destruct (Main.split sep s); discriminate.
Qed.

Lemma join_cons x y ys :
  Main.join (x :: y :: ys) = x +:+ "/" +:+ Main.join (y :: ys).
Proof. reflexivity. Qed.

Lemma join_split s : Main.join (Main.split "/" s) = s.
Proof.
  induction s as [|c s IH]; [reflexivity|].
  cbn [Main.split]. pose proof (split_nonempty "/" s) as Hne.
  destruct (Ascii.eqb c "/") eqn:E.
  - apply Ascii.eqb_eq in E. subst c.
    destruct (Main.split "/" s) as [|y ys]; [congruence|].
    rewrite join_cons, IH. reflexivity.
  - destruct (Main.split "/" s) as [|y [|z zs]]; [congruence| |].
    + cbn in *. congruence.
    + rewrite join_cons in *. cbn. rewrite <- IH. reflexivity.
Qed.

Lemma string_append_assoc (a b c : string) :
  (a +:+ b) +:+ c = a +:+ (b +:+ c).
Proof.
  induction a as [|x a IH]; [reflexivity|].
  change (String x ((a +:+ b) +:+ c) = String x (a +:+ (b +:+ c))).
  congruence.
Qed.

Lemma string_append_nil_r (a : string) : a +:+ EmptyString = a.
Proof.
  induction a as [|x a IH]; [reflexivity|].
  change (String x (a +:+ EmptyString) = String x a). congruence.
Qed.

Lemma join_app (xs ys : list string) :
  xs <> [] -> ys <> [] ->
  Main.join (xs ++ ys) = Main.join xs +:+ "/" +:+ Main.join ys.
Proof.
  intros Hxs Hys. induction xs as [|x xs IH]; [congruence|].
  destruct xs as [|x' xs].
  - destruct ys; [congruence|]. reflexivity.
  - cbn [app] in *. rewrite !join_cons, IH by discriminate.
    rewrite !string_append_assoc. reflexivity.
Qed.

Lemma py_in_take (x : string) (xs : list string) (i : nat) :
  i <= length xs ->
  negb (Main.py_in x (take i xs)) = (i <=? Main.index_of x xs)%nat.
Proof.
  revert i. induction xs as [|y xs IH]; intros i Hi.
  - cbn in Hi. replace i with 0 by lia. reflexivity.
  - destruct i as [|i]; [reflexivity|].
    cbn [take Main.py_in existsb Main.index_of length] in *.
    destruct (String.eqb x y); [reflexivity|].
    cbn [orb]. apply IH. lia.
Qed.

Lemma filter_leb_seq (k n : nat) :
  List.filter (fun i => (i <=? k)%nat) (seq 1 n) = seq 1 (min k n).
Proof.
  induction n as [|n IH]; [rewrite Nat.min_0_r; reflexivity|].
  rewrite seq_S, List.filter_app, IH. cbn [List.filter Nat.add].
  destruct (Nat.leb_spec (S n) k) as [Hle|Hgt].
  - rewrite !Nat.min_r by lia. rewrite seq_S. reflexivity.
  - rewrite !Nat.min_l by lia. apply app_nil_r.
Qed.

Lemma last_map_seq {A} (f : nat -> A) (m : nat) :
  last (map f (seq 1 m)) = match m with 0 => None | S _ => Some (f m) end.
Proof.
  destruct m as [|m]; [reflexivity|].
  rewrite seq_S, map_app. cbn [map]. rewrite last_snoc. reflexivity.
Qed.

(** The comprehension in closed form: the longest proper prefix of the
    components that stops before the first one named [PROJECT_PATH]. *)
Lemma filter_path_closed_form (file : string) :
  let base := Main.split "/" file in
  let m := min (Main.index_of Main.PROJECT_PATH base) (length base - 1) in
  Main._filter_path file
  = match m with
    | 0 => Raise (IndexError "list index out of range")
    | S _ => Ok (Main.join (take m base))
    end.
Proof.
  intros base m. unfold Main._filter_path. fold base.
  rewrite (List.filter_ext_in
             (fun i => negb (Main.py_in Main.PROJECT_PATH (take i base)))
             (fun i => (i <=? Main.index_of Main.PROJECT_PATH base)%nat)).
  - rewrite filter_leb_seq, last_map_seq. fold m. destruct m; reflexivity.
  - intros i Hi. apply in_seq in Hi. apply py_in_take. lia.
Qed.

Lemma index_of_app (x : string) (pre post : list string) :
  Main.py_in x pre = false ->
  Main.index_of x (pre ++ x :: post) = length pre.
Proof.
  induction pre as [|y pre IH]; cbn [Main.py_in existsb app Main.index_of length].
  - rewrite String.eqb_refl. reflexivity.
  - intros H. apply orb_false_elim in H as [Hy Hpre]. rewrite Hy, IH by exact Hpre.
    reflexivity.
Qed.

(** When a directory on the file's path is named [PyLiquid2EVM], and it is
    not the first component, the backend path is the path up to and
    including the first such directory: a prefix of the file's path. *)
Theorem backend_path_project_found (file : string) (pre post : list string) :
  Main.split "/" file = pre ++ Main.PROJECT_PATH :: post ->
  Main.py_in Main.PROJECT_PATH pre = false ->
  pre <> [] ->
  Main.BACKEND_PATH file = Ok (Main.join (pre ++ [Main.PROJECT_PATH])) /\
  file = Main.join (pre ++ [Main.PROJECT_PATH])
         +:+ match post with
             | [] => EmptyString
             | _ :: _ => "/" +:+ Main.join post
             end.
Proof.
  intros Hsplit Hpre Hne. split.
  - unfold Main.BACKEND_PATH. rewrite filter_path_closed_form. cbv zeta.
    rewrite Hsplit, (index_of_app _ _ _ Hpre), length_app. cbn [length].
    rewrite Nat.min_l by lia.
    destruct (length pre) as [|k] eqn:Hlen; [destruct pre; [congruence|discriminate]|].
    rewrite <- Hlen, take_app_length.
    rewrite join_app by (assumption || discriminate). reflexivity.
  - rewrite <- (join_split file), Hsplit.
    destruct post as [|q post].
    + rewrite string_append_nil_r. reflexivity.
    + change (pre ++ Main.PROJECT_PATH :: q :: post)
        with (pre ++ [Main.PROJECT_PATH] ++ q :: post).
      rewrite app_assoc, join_app; [reflexivity| |discriminate].
      destruct pre; discriminate.
Qed.

Lemma index_of_skip (x : string) (pre rest : list string) :
  Main.py_in x pre = false ->
  Main.index_of x (pre ++ rest) = length pre + Main.index_of x rest.
Proof.
  induction pre as [|y pre IH]; cbn [Main.py_in existsb app Main.index_of length];
    [reflexivity|].
  intros H. apply orb_false_elim in H as [Hy Hpre].
  rewrite Hy, IH by exact Hpre. reflexivity.
Qed.

(** When no directory on the file's path is named [PyLiquid2EVM], the
    backend path is the file's own directory followed by [/PyLiquid2EVM],
    whatever the file is called. *)
Theorem backend_path_without_project_directory
    (file : string) (dirs : list string) (name : string) :
  Main.split "/" file = dirs ++ [name] ->
  Main.py_in Main.PROJECT_PATH dirs = false ->
  dirs <> [] ->
  Main.BACKEND_PATH file = Ok (Main.join dirs +:+ "/" +:+ Main.PROJECT_PATH).
Proof.
  intros Hsplit Hdirs Hne.
  unfold Main.BACKEND_PATH. rewrite filter_path_closed_form. cbv zeta.
  rewrite Hsplit, (index_of_skip _ _ _ Hdirs), length_app. cbn [length].
  rewrite Nat.min_r by lia.
  replace (length dirs + 1 - 1) with (length dirs) by lia.
  destruct (length dirs) as [|k] eqn:Hlen;
    [destruct dirs; [congruence|discriminate]|].
  rewrite <- Hlen, take_app_length. reflexivity.
Qed.

(** The computation fails, with [IndexError], exactly on a path without
    any slash and on a path whose first component is [PyLiquid2EVM]; on
    every other path it yields a backend path. *)
Theorem backend_path_raises_iff (file : string) :
  Main.BACKEND_PATH file = Raise (IndexError "list index out of range")
  <-> (exists only, Main.split "/" file = [only])
      \/ (exists rest, Main.split "/" file = Main.PROJECT_PATH :: rest).
Proof.
  unfold Main.BACKEND_PATH. rewrite filter_path_closed_form. cbv zeta.
  pose proof (split_nonempty "/" file) as Hne.
  destruct (Main.split "/" file) as [|c0 [|c1 cs]]; [congruence| |].
  - cbn [length Nat.sub]. rewrite Nat.min_0_r. split; [|reflexivity].
    intros _. left. eexists. reflexivity.
  - cbn [Main.index_of length Nat.sub].
    destruct (String.eqb Main.PROJECT_PATH c0) eqn:E.
    + apply String.eqb_eq in E. subst c0. cbn [Nat.min]. split; [|reflexivity].
      intros _. right. eexists. reflexivity.
    + cbn [Nat.min]. split; [discriminate|].
      intros [[only H] | [rest H]]; [discriminate|].
      injection H as -> _. rewrite String.eqb_refl in E. discriminate.
Qed.

(** The backend path of a checkout under /home/u. *)
Lemma backend_path_project_found_witness :
  Main.BACKEND_PATH "/home/u/PyLiquid2EVM/pyliquid/main.py"
  = Ok "/home/u/PyLiquid2EVM"
  /\ "/home/u/PyLiquid2EVM/pyliquid/main.py"
     = "/home/u/PyLiquid2EVM" +:+ "/pyliquid/main.py".
Proof.
  exact (backend_path_project_found "/home/u/PyLiquid2EVM/pyliquid/main.py"
           [EmptyString; "home"; "u"] ["pyliquid"; "main.py"]
           eq_refl eq_refl ltac:(discriminate)).
Defined.

(** The backend path of an installation outside any checkout. *)
Lemma backend_path_without_project_directory_witness :
  Main.BACKEND_PATH "/srv/app/pyliquid/main.py" = Ok "/srv/app/pyliquid/PyLiquid2EVM".
Proof.
  exact (backend_path_without_project_directory "/srv/app/pyliquid/main.py"
           [EmptyString; "srv"; "app"; "pyliquid"] "main.py"
           eq_refl eq_refl ltac:(discriminate)).
Defined.

(** ** More concrete nodes and worlds *)

Module Scenario.

(** A node like the first, but whose wallets have no keys left: it rejects
    [getnewaddress]. *)
Definition rpc_without_keys (n : nat) (rq : RpcCall) : (pyval + Z * string) * nat :=
  if String.eqb (call_method rq) "getnewaddress"
  then (inr ((-4)%Z, "Error: This wallet has no available keys"), S n)
  else Demo.rpc n rq.

(** A Service registered on connection 7, no wallet in the session. *)
Definition registered_only : World nat :=
  MkWorld nat 0 [] 0 [] [] [7] [(0, PyProxy 7)] [].

End Scenario.

(** ** The further properties at the concrete nodes *)

(** From process start, after a construction, a pool, a request for the
    list and a failed creation request, the session still holds no wallet
    and the lookup answers "no wallets loaded". *)
Lemma session_wallets_never_change_witness :
  let evs := [EvNewWallet (MkArgs (Some (PyProxy 0)) (Some (PyStr "c")) None None);
              EvNewPool 0; EvGetWallet; EvPostCreate] in
  let w := run_events nat Demo.rpc Demo.urandom 3 Demo.start evs in
  session_wallets nat w = [] /\
  (get_labeled_wallet nat "a" w).1 = Raise no_wallet_loaded.
Proof.
  intros evs w.
  destruct (session_wallets_never_change nat Demo.rpc Demo.urandom 3 evs Demo.start)
    as [Hkept Hlookup].
  split; [exact Hkept|].
  fold w in Hlookup. rewrite (Hlookup eq_refl "a"). reflexivity.
Defined.

(** A wallet loaded at process start reads back its connection and the
    node's record. *)
Lemma constructed_wallet_reads_back_witness :
  let out := Wallet_new nat Demo.rpc Demo.urandom
               (MkArgs (Some (PyProxy 0)) (Some (PyStr "l")) (Some (PyStr "w1")) None)
               Demo.start in
  out.1 = Ok 0 /\
  (proxy nat 0 out.2).1 = Ok (PyProxy 0) /\
  length (wallet_heap nat out.2) = 1.
Proof.
  intros out.
  destruct (constructed_wallet_reads_back nat Demo.rpc Demo.urandom (PyProxy 0)
              (Some (PyStr "l")) (Some (PyStr "w1")) None Demo.start out.2 0 eq_refl)
    as (Hproxy & _ & Hlen & _).
  split; [reflexivity|]. split; [rewrite Hproxy; reflexivity|exact Hlen].
Defined.

(** On the node without keys a creation with an address raises, after
    [createwallet] was served. *)
Lemma create_mode_address_rejected_witness :
  let out := Wallet_new nat Scenario.rpc_without_keys Demo.urandom
               (MkArgs (Some (PyProxy 0)) (Some (PyStr "c")) (Some (PyStr "w1")) None)
               Demo.start in
  out.1 = Raise (RpcFailure (-4) "Error: This wallet has no available keys") /\
  call_method <$> (request <$> rpc_log nat out.2) = ["createwallet"; "getnewaddress"] /\
  reply <$> head (rpc_log nat out.2)
  = Some (inl (PyDict [("name", PyStr "w1"); ("warning", PyStr EmptyString)])).
Proof.
  intros out.
  destruct (create_mode_address_rejected nat Scenario.rpc_without_keys Demo.urandom
              0 (Some (PyStr "w1")) Demo.start _ 1 2 _ _ eq_refl eq_refl)
    as (Hres & Hlog & _ & _).
  fold out in Hres, Hlog.
  split; [exact Hres|]. rewrite Hlog. split; reflexivity.
Defined.

(** A reference wallet built on [None]: constructed, and its balance
    request raises with nothing sent. *)
Lemma reference_wallet_without_connection_witness :
  let out := Wallet_new nat Demo.rpc Demo.urandom
               (MkArgs (Some PyNone) None None None) Demo.start in
  out.1 = Ok 0 /\
  exists msg,
    run_wallet_op nat Demo.rpc 0 OpGetBalance out.2 = (Raise (AttributeError msg), out.2).
Proof.
  intros out.
  destruct (reference_wallet_without_connection nat Demo.rpc Demo.urandom PyNone
              None None Demo.start ltac:(discriminate)) as (Hok & _ & Hops).
  split; [exact Hok|]. exact (Hops OpGetBalance).
Defined.

(** In the session with a reference wallet every lookup raises
    [KeyError]. *)
Lemma get_labeled_wallet_KeyError_witness :
  get_labeled_wallet nat "b" Demo.session_with_reference
  = (Raise (KeyError "label"), Demo.session_with_reference).
Proof.
  refine (get_labeled_wallet_KeyError nat "b" Demo.session_with_reference
            [0] [] 1 [] eq_refl _ eq_refl eq_refl).
  repeat constructor. eexists _, _. split; reflexivity.
Defined.

(** A balance check followed by [send_to_address("addr1", 1.5)]: two
    requests, in that order. *)
Lemma wallet_history_requests_witness :
  request <$> rpc_log nat
    (run_actions nat Demo.rpc Demo.with_pool
       [WalletAct 0 OpGetBalance;
        WalletAct 0 (OpSendToAddress (PyStr "addr1") (PyFloat 1.5))])
  = [Call 0 "getbalance" [];
     Call 0 "sendtoaddress" [PyStr "addr1"; PyFloat 1.5]].
Proof.
  exact (wallet_history_requests nat Demo.rpc 0 _ 0
           [OpGetBalance; OpSendToAddress (PyStr "addr1") (PyFloat 1.5)]
           Demo.with_pool eq_refl eq_refl).
Defined.

(** The list request at process start raises and leaves one Service
    registered. *)
Lemma get_wallet_from_scratch_raises_witness :
  let out := get_wallet nat Demo.rpc Demo.urandom 2 Demo.start in
  (exists msg, out.1 = Raise (AttributeError msg)) /\
  active_service nat out.2 = [(0, PyProxy 0)].
Proof.
  intros out.
  destruct (get_wallet_from_scratch_raises nat Demo.rpc Demo.urandom 0 Demo.start
              eq_refl eq_refl) as (Hraise & _ & Hreg & _).
  split; [exact Hraise|exact Hreg].
Defined.

(** The list request with a registered Service goes to its connection and
    answers [None]. *)
Lemma get_wallet_uses_registered_connection_witness :
  let out := get_wallet nat Demo.rpc Demo.urandom 1 Scenario.registered_only in
  request <$> rpc_log nat out.2 = [Call 7 "listwalletdir" []] /\
  out.1 = Ok PyNone.
Proof.
  intros out.
  destruct (get_wallet_uses_registered_connection nat Demo.rpc Demo.urandom 0
              Scenario.registered_only [] 0 7 eq_refl eq_refl)
    as (Hlog & _ & _ & Hres).
  split; [exact Hlog|exact Hres].
Defined.

(** A reference wallet is loaded and asked for its balance; its metadata
    is still the empty record. *)
Lemma wallet_getters_are_constant_witness :
  let w' := run_actions nat Demo.rpc Demo.with_pool
              [WalletAct 0 (OpLoadWallet (PyStr "w1")); WalletAct 0 OpGetBalance] in
  (run_wallet_op nat Demo.rpc 0 (OpLoadWallet (PyStr "w1")) Demo.with_pool).1
  = Ok (PyDict [("name", PyStr "w1"); ("warning", PyStr EmptyString)]) /\
  wallet nat 0 w' = (Ok (PyDict []), w').
Proof.
  intros w'. split; [reflexivity|].
  exact (proj1 (wallet_getters_are_constant nat Demo.rpc 0 _ (PyDict []) (PyProxy 0)
                  [WalletAct 0 (OpLoadWallet (PyStr "w1")); WalletAct 0 OpGetBalance]
                  Demo.with_pool eq_refl eq_refl eq_refl)).
Defined.
